(** * The Kokoro TTS playback pipeline of OM1

    A shallow embedding of
      - [src/providers/kokoro_tts_provider.py]          (module [Provider]),
      - [src/actions/speak/connector/kokoro_tts.py]     (module [Speak]),
      - [src/actions/greeting_conversation/connector/greeting_conversation_kokoro.py]
                                                        (module [Greeting]),
      - [src/runtime/version.py]                        (module [Version]),
    with the properties of the pipeline and of the version check stated and
    proved on it.

    Conventions.  Python [int] is [Z]; [str] is [string] (a character is a
    code point below 256); [Optional[T]] is [option T]; an object's methods
    are functions from the object to a computation in the monad [M] that
    returns the mutated object.  [M] threads the two things every method may
    touch outside its own object: the allocator of object identities and the
    trace of observable effects (log records, calls on collaborators,
    publications).  [time.time()] and [uuid4()] are inputs of the method that
    reads them.  A Python [float] (a timestamp, a duration) is a binary64
    number, the primitive [float], with its rounding arithmetic. *)

From Stdlib Require Import ZArith List String Ascii Bool Lia Floats Uint63.
Import ListNotations.

Local Open Scope string_scope.
Local Open Scope Z_scope.

(** ** Python strings *)

Module Py.

(** [needle in hay] on [str]. *)
Fixpoint str_in (needle hay : string) : bool :=
  if String.prefix needle hay then true
  else match hay with
       | EmptyString => false
       | String _ rest => str_in needle rest
       end.

(** [needle not in hay]. *)
Definition str_not_in (needle hay : string) : bool := negb (str_in needle hay).

(** [str.isspace] on one character: the code points below 256 that
    [str.split()] treats as separators. *)
Definition isspace (c : ascii) : bool :=
  let n := nat_of_ascii c in
  ((9 <=? n) && (n <=? 13) || (28 <=? n) && (n <=? 32)
   || (n =? 133) || (n =? 160))%nat.

(** [s.split()] with no argument: the maximal runs of non-space characters.
    [cur] is the word being read. *)
Fixpoint split_from (cur s : string) : list string :=
  match s with
  | EmptyString => match cur with EmptyString => [] | _ => [cur] end
  | String c rest =>
      if isspace c
      then match cur with
           | EmptyString => split_from EmptyString rest
           | _ => cur :: split_from EmptyString rest
           end
      else split_from (cur ++ String c EmptyString) rest
  end.

Definition split (s : string) : list string := split_from EmptyString s.

(** [a == b] on [Optional[str]]. *)
Definition opt_str_eqb (a b : option string) : bool :=
  match a, b with
  | None, None => true
  | Some x, Some y => String.eqb x y
  | _, _ => false
  end.

End Py.

(** ** Observable effects *)

(** The dict built by [KokoroTTSProvider.create_pending_message]. *)
Record PendingMessage := mkPending {
  text : string;
  voice_id : string;
  model_id : string;
  output_format : string
}.

Definition PendingMessage_eqb (a b : PendingMessage) : bool :=
  String.eqb (text a) (text b) && String.eqb (voice_id a) (voice_id b)
  && String.eqb (model_id a) (model_id b)
  && String.eqb (output_format a) (output_format b).

(** [std_msgs] header as [prepare_header] fills it.

    Modelled from the spec: [zenoh_msgs.prepare_header] is not among the
    sources; the response "echoes the originating request's header/frame
    identifier", so the header made from a frame identifier carries it. *)
Record Header := mkHeader { frame_id : string }.

Definition prepare_header (frame : string) : Header := mkHeader frame.

(** [AudioStatus.STATUS_SPEAKER]: the two members the connector names; any
    other wire value is kept as it is. *)
Inductive STATUS_SPEAKER := SPEAKER_READY | SPEAKER_ACTIVE | SPEAKER_other (v : Z).

(** [AudioStatus.STATUS_MIC], likewise. *)
Inductive STATUS_MIC := MIC_UNKNOWN | MIC_other (v : Z).

(** The text of [sentence_to_speak]: an arbitrary string, or
    [json.dumps] of a pending message. *)
Inductive Sentence :=
| Raw (s : string)
| JsonDumps (m : PendingMessage).

Record AudioStatus := mkAudioStatus {
  as_header : Header;
  status_mic : STATUS_MIC;
  status_speaker : STATUS_SPEAKER;
  sentence_to_speak : Sentence
}.

Record TTSStatusRequest := mkRequest {
  req_header : Header;
  req_request_id : string;
  req_code : Z
}.

Record TTSStatusResponse := mkResponse {
  resp_header : Header;
  resp_request_id : string;
  resp_code : Z;
  resp_status : string
}.

(** The sites of the [logging] calls, with the values they format. *)
Inductive LogRecord :=
| log_audio_stream (t : string)             (* info, create_pending_message *)
| log_not_running_add                       (* warning, add_pending_message *)
| log_adding (m : PendingMessage)           (* info, add_pending_message *)
| log_already_running                       (* warning, start *)
| log_not_running_stop                      (* warning, stop *)
| log_tts_disabled                          (* info, Speak.connect *)
| log_skipping (rate counter : Z)           (* info, Speak.connect *)
| log_zenoh_opened                          (* info, Speak.__init__ *)
| log_zenoh_error                           (* error, Speak.__init__ *)
| log_zenoh_closed                          (* info, Speak.stop *)
| log_request (r : TTSStatusRequest)        (* debug, status request *)
| log_enabled                               (* debug, status request *)
| log_disabled                              (* debug, status request *)
| log_conversation_state                    (* info, Greeting.connect *)
| log_greeting_response (response : string) (* info, Greeting.connect *)
| log_confidence                            (* info, Greeting.connect *)
| log_speech_clarity                        (* info, Greeting.connect *)
| log_conversation_response                 (* info, Greeting.connect *)
| log_finished                              (* info, Greeting.connect *)
| log_tick                                  (* info, Greeting.tick *)
| log_tick_skipped                          (* info, Greeting.tick *)
| log_finished_in_tick                      (* info, Greeting.tick *)
| log_state_update.                         (* info, Greeting.tick *)

Inductive event :=
| Log (r : LogRecord)
(* AudioOutputLiveStream, by object identity *)
| StreamNew (id : nat)
| StreamStart (id : nat)
| StreamStop (id : nat)
| StreamAddRequest (id : nat) (m : PendingMessage)
| StreamSetCallback (id : nat) (cb : nat)
(* pub/sub transport *)
| AudioPut (s : AudioStatus)
| ResponsePut (r : TTSStatusResponse)
| SessionClose
(* TeleopsConversationProvider *)
| StoreRobotMessage (t : string)
(* conversation state machine and shared context *)
| ProcessConversation
| UpdateStateWithoutLLM
| UpdateContextFinished
| Sleep (seconds : Z).

(** ** The effect monad *)

Record World := mkWorld {
  next_id : nat;          (* identity of the next object constructed *)
  trace : list event      (* effects so far, oldest first *)
}.

Definition M (A : Type) : Type := World -> A * World.

Definition ret {A} (a : A) : M A := fun w => (a, w).

Definition bind {A B} (c : M A) (k : A -> M B) : M B :=
  fun w => let (a, w') := c w in k a w'.

Notation "x <- c ;; k" := (bind c (fun x => k))
  (at level 61, c at next level, right associativity).
Notation "c ;;; k" := (bind c (fun _ => k))
  (at level 61, right associativity).

Definition emit (e : event) : M unit :=
  fun w => (tt, mkWorld (next_id w) (trace w ++ [e])).

Definition new_object : M nat :=
  fun w => (next_id w, mkWorld (S (next_id w)) (trace w)).

Definition logging (r : LogRecord) : M unit := emit (Log r).

Definition world0 : World := mkWorld 0 [].

(** Number of [create_pending_message] calls in a trace: each call leaves its
    [audio_stream: ...] record, and nothing else writes one. *)
Fixpoint created_messages (tr : list event) : nat :=
  match tr with
  | [] => 0%nat
  | Log (log_audio_stream _) :: rest => S (created_messages rest)
  | _ :: rest => created_messages rest
  end.

(** Responses put on [om/tts/response] in a trace, oldest first. *)
Fixpoint responses (tr : list event) : list TTSStatusResponse :=
  match tr with
  | [] => []
  | ResponsePut r :: rest => r :: responses rest
  | _ :: rest => responses rest
  end.

(** Number of [update_state_without_llm] calls in a trace. *)
Fixpoint state_updates (tr : list event) : nat :=
  match tr with
  | [] => 0%nat
  | UpdateStateWithoutLLM :: rest => S (state_updates rest)
  | _ :: rest => state_updates rest
  end.

(** Number of [update_context] notifications in a trace. *)
Fixpoint notifications (tr : list event) : nat :=
  match tr with
  | [] => 0%nat
  | UpdateContextFinished :: rest => S (notifications rest)
  | _ :: rest => notifications rest
  end.

(** ** The audio output stream (external collaborator, [om1_speech]) *)

Module Stream.

(** Modelled from the spec: [AudioOutputLiveStream] "owns the actual network
    connection to the speech-synthesis backend and a queue of playback
    requests".  The object keeps its constructor arguments, whether it has
    been started, its queue and its callback; [ident] is the identity of the
    Python object. *)
Record t := mk {
  ident : nat;
  _url : string;
  tts_model : string;
  tts_voice : string;
  response_format : string;
  rate : Z;
  api_key : option string;
  enable_tts_interrupt : bool;
  started : bool;
  _pending_requests : list PendingMessage;
  _tts_state_callback : option nat
}.

(** [AudioOutputLiveStream(url=..., tts_model=..., ...)]. *)
Definition new (url model voice format : string) (rate : Z)
    (key : option string) (interrupt : bool) : M t :=
  id <- new_object ;;
  emit (StreamNew id) ;;;
  ret (mk id url model voice format rate key interrupt false [] None).

Definition start (s : t) : M t :=
  emit (StreamStart (ident s)) ;;;
  ret (mk (ident s) (_url s) (tts_model s) (tts_voice s) (response_format s)
          (rate s) (api_key s) (enable_tts_interrupt s) true
          (_pending_requests s) (_tts_state_callback s)).

Definition stop (s : t) : M t :=
  emit (StreamStop (ident s)) ;;;
  ret (mk (ident s) (_url s) (tts_model s) (tts_voice s) (response_format s)
          (rate s) (api_key s) (enable_tts_interrupt s) false
          (_pending_requests s) (_tts_state_callback s)).

Definition add_request (m : PendingMessage) (s : t) : M t :=
  emit (StreamAddRequest (ident s) m) ;;;
  ret (mk (ident s) (_url s) (tts_model s) (tts_voice s) (response_format s)
          (rate s) (api_key s) (enable_tts_interrupt s) (started s)
          (_pending_requests s ++ [m]) (_tts_state_callback s)).

Definition set_tts_state_callback (cb : nat) (s : t) : M t :=
  emit (StreamSetCallback (ident s) cb) ;;;
  ret (mk (ident s) (_url s) (tts_model s) (tts_voice s) (response_format s)
          (rate s) (api_key s) (enable_tts_interrupt s) (started s)
          (_pending_requests s) (Some cb)).

(** [_pending_requests.qsize()]. *)
Definition qsize (s : t) : Z := Z.of_nat (List.length (_pending_requests s)).

End Stream.

(** ** [KokoroTTSProvider] *)

Module Provider.

(** The keyword arguments shared by [__init__] and [configure]. *)
Record Args := mkArgs {
  url : string;
  api_key : option string;
  voice_id : string;
  model_id : string;
  output_format : string;
  rate : Z;
  enable_tts_interrupt : bool
}.

(** The defaults of both signatures. *)
Definition defaults : Args :=
  mkArgs "http://127.0.0.1:8880/v1" None "af_bella" "kokoro" "pcm" 24000 false.

Record t := mk {
  self_api_key : option string;
  running : bool;
  _audio_stream : Stream.t;
  _voice_id : string;
  _model_id : string;
  _output_format : string;
  _enable_tts_interrupt : bool
}.

Definition set_running (b : bool) (self : t) : t :=
  mk (self_api_key self) b (_audio_stream self) (_voice_id self)
     (_model_id self) (_output_format self) (_enable_tts_interrupt self).

Definition set_audio_stream (s : Stream.t) (self : t) : t :=
  mk (self_api_key self) (running self) s (_voice_id self)
     (_model_id self) (_output_format self) (_enable_tts_interrupt self).

Definition init (a : Args) : M t :=
  s <- Stream.new (url a) (model_id a) (voice_id a) (output_format a)
                  (rate a) (api_key a) (enable_tts_interrupt a) ;;
  ret (mk (api_key a) false s (voice_id a) (model_id a) (output_format a)
          (enable_tts_interrupt a)).

(** [KokoroTTSProvider(...)] under [@singleton]: [instance] is the provider
    that exists already, if any.

    Modelled from the spec: the decorator of [providers/singleton.py] is not
    among the sources; "exactly one instance exists process-wide; repeated
    construction returns the same instance". *)
Definition singleton (instance : option t) (a : Args) : M t :=
  match instance with
  | Some p => ret p
  | None => init a
  end.

Definition start (self : t) : M t :=
  if running self then
    logging log_already_running ;;;
    ret self
  else
    let self := set_running true self in
    s <- Stream.start (_audio_stream self) ;;
    ret (set_audio_stream s self).

Definition stop (self : t) : M t :=
  if negb (running self) then
    logging log_not_running_stop ;;;
    ret self
  else
    let self := set_running false self in
    s <- Stream.stop (_audio_stream self) ;;
    ret (set_audio_stream s self).

Definition restart_needed (a : Args) (self : t) : bool :=
  negb (String.eqb (url a) (Stream._url (_audio_stream self)))
  || negb (Py.opt_str_eqb (api_key a) (self_api_key self))
  || negb (String.eqb (voice_id a) (_voice_id self))
  || negb (String.eqb (model_id a) (_model_id self))
  || negb (String.eqb (output_format a) (_output_format self))
  || negb (Bool.eqb (enable_tts_interrupt a) (_enable_tts_interrupt self)).

Definition configure (a : Args) (self : t) : M t :=
  if negb (restart_needed a self) then ret self
  else
    self <- (if running self then stop self else ret self) ;;
    let self :=
      mk (api_key a) (running self) (_audio_stream self) (voice_id a)
         (model_id a) (output_format a) (enable_tts_interrupt a) in
    s <- Stream.new (url a) (model_id a) (voice_id a) (output_format a)
                    (rate a) (api_key a) (enable_tts_interrupt a) ;;
    s <- Stream.start s ;;
    ret (set_audio_stream s self).

Definition register_tts_state_callback (cb : option nat) (self : t) : M t :=
  match cb with
  | Some f =>
      s <- Stream.set_tts_state_callback f (_audio_stream self) ;;
      ret (set_audio_stream s self)
  | None => ret self
  end.

Definition create_pending_message (txt : string) (self : t) : M PendingMessage :=
  logging (log_audio_stream txt) ;;;
  ret (mkPending txt (_voice_id self) (_model_id self) (_output_format self)).

(** [Union[str, dict]]. *)
Inductive Message :=
| Str (s : string)
| Dict (m : PendingMessage).

Definition add_pending_message (message : Message) (self : t) : M t :=
  if negb (running self) then
    logging log_not_running_add ;;;
    ret self
  else
    m <- match message with
         | Str s => create_pending_message s self
         | Dict d => ret d
         end ;;
    logging (log_adding m) ;;;
    s <- Stream.add_request m (_audio_stream self) ;;
    ret (set_audio_stream s self).

Definition get_pending_message_count (self : t) : Z :=
  Stream.qsize (_audio_stream self).

(** The arguments the provider is configured with, read back from the
    object: the provider keeps five of them, the stream the other two. *)
Definition active (self : t) : Args :=
  mkArgs (Stream._url (_audio_stream self)) (self_api_key self)
         (_voice_id self) (_model_id self) (_output_format self)
         (Stream.rate (_audio_stream self)) (_enable_tts_interrupt self).

End Provider.

(** ** [SpeakKokoroTTSConnector] *)

Module Speak.

(** [SpeakKokoroTTSConfig]; [api_key] is what
    [getattr(self.config, "api_key", None)] reads. *)
Record Config := mkConfig {
  voice_id : string;
  model_id : string;
  output_format : string;
  rate : Z;
  enable_tts_interrupt : bool;
  silence_rate : Z;
  api_key : option string
}.

(** The [Field] defaults. *)
Definition default_config : Config :=
  mkConfig "af_bella" "kokoro" "pcm" 24000 false 0 None.

(** The statements of the [try] block of [__init__], in order; any of them
    may raise, which ends the block. *)
Inductive ZenohStep :=
| OpenSession
| DeclareAudioPublisher
| SubscribeAudio
| SubscribeRequest
| DeclareResponsePublisher
| PutStatus.

Definition step_index (s : ZenohStep) : nat :=
  match s with
  | OpenSession => 0
  | DeclareAudioPublisher => 1
  | SubscribeAudio => 2
  | SubscribeRequest => 3
  | DeclareResponsePublisher => 4
  | PutStatus => 5
  end.

Inductive ZenohOutcome :=
| Raises (at_step : ZenohStep)
| Succeeds.

(** Whether the block got past statement [s]. *)
Definition passed (o : ZenohOutcome) (s : ZenohStep) : bool :=
  match o with
  | Succeeds => true
  | Raises r => (step_index s <? step_index r)%nat
  end.

(** A declared publisher, by its topic. *)
Inductive Publisher := publisher (topic : string).

Record t := mk {
  self_silence_rate : Z;
  silence_counter : Z;
  session : bool;                                   (* [session is not None] *)
  audio_pub : option Publisher;
  _zenoh_tts_status_response_pub : option Publisher;  (* [None]: never bound *)
  audio_status : AudioStatus;
  tts : Provider.t;
  tts_enabled : bool
}.

Definition set_silence_counter (n : Z) (self : t) : t :=
  mk (self_silence_rate self) n (session self) (audio_pub self)
     (_zenoh_tts_status_response_pub self) (audio_status self) (tts self)
     (tts_enabled self).

Definition set_audio_status (a : AudioStatus) (self : t) : t :=
  mk (self_silence_rate self) (silence_counter self) (session self)
     (audio_pub self) (_zenoh_tts_status_response_pub self) a (tts self)
     (tts_enabled self).

Definition set_tts (p : Provider.t) (self : t) : t :=
  mk (self_silence_rate self) (silence_counter self) (session self)
     (audio_pub self) (_zenoh_tts_status_response_pub self)
     (audio_status self) p (tts_enabled self).

Definition set_tts_enabled (b : bool) (self : t) : t :=
  mk (self_silence_rate self) (silence_counter self) (session self)
     (audio_pub self) (_zenoh_tts_status_response_pub self)
     (audio_status self) (tts self) b.

Definition provider_args (config : Config) : Provider.Args :=
  Provider.mkArgs "http://127.0.0.1:8880/v1" (api_key config)
    (voice_id config) (model_id config) (output_format config) (rate config)
    (enable_tts_interrupt config).

(** [__init__]: [zenoh] says how the [try] block went, [uuid] is [uuid4()],
    [instance] the provider that exists already, if any. *)
Definition init (config : Config) (zenoh : ZenohOutcome) (uuid : string)
    (instance : option Provider.t) : M t :=
  let status :=
    mkAudioStatus (prepare_header uuid) MIC_UNKNOWN SPEAKER_READY
                  (Raw EmptyString) in
  let pub :=
    if passed zenoh DeclareAudioPublisher
    then Some (publisher "robot/status/audio") else None in
  let response_pub :=
    if passed zenoh DeclareResponsePublisher
    then Some (publisher "om/tts/response") else None in
  (match zenoh with
   | Succeeds => emit (AudioPut status) ;;; logging log_zenoh_opened
   | Raises _ => logging log_zenoh_error
   end) ;;;
  p <- Provider.singleton instance (provider_args config) ;;
  p <- Provider.start p ;;
  p <- Provider.configure (provider_args config) p ;;
  ret (mk (silence_rate config) 0 (passed zenoh OpenSession) pub response_pub
          status p true).

Definition zenoh_audio_message (data : AudioStatus) (self : t) : M t :=
  ret (set_audio_status data self).

(** The substring whose presence marks a prompt as voice input. *)
Definition voice_marker : string := "INPUT: Voice".

(** [llm_prompt is not None and "INPUT: Voice" not in llm_prompt]. *)
Definition not_voice (llm_prompt : option string) : bool :=
  match llm_prompt with
  | Some p => Py.str_not_in voice_marker p
  | None => false
  end.

(** [llm_prompt is not None and "INPUT: Voice" in llm_prompt]. *)
Definition is_voice (llm_prompt : option string) : bool :=
  match llm_prompt with
  | Some p => Py.str_in voice_marker p
  | None => false
  end.

(** The condition of the skip branch of [connect]. *)
Definition skips (llm_prompt : option string) (self : t) : bool :=
  (0 <? self_silence_rate self)
  && (silence_counter self <? self_silence_rate self)
  && not_voice llm_prompt.

(** [connect(output_interface)]: [action] is [output_interface.action],
    [llm_prompt] what [self.io_provider.llm_prompt] reads during the call,
    [uuid] is [uuid4()]. *)
Definition connect (action : string) (llm_prompt : option string)
    (uuid : string) (self : t) : M t :=
  if negb (tts_enabled self) then
    logging log_tts_disabled ;;;
    ret self
  else if skips llm_prompt self then
    let self := set_silence_counter (silence_counter self + 1) self in
    logging (log_skipping (self_silence_rate self) (silence_counter self)) ;;;
    ret self
  else
    let self := set_silence_counter 0 self in
    pending_message <- Provider.create_pending_message action (tts self) ;;
    (if is_voice llm_prompt then emit (StoreRobotMessage action) else ret tt) ;;;
    let state :=
      mkAudioStatus (prepare_header uuid) (status_mic (audio_status self))
                    SPEAKER_ACTIVE (JsonDumps pending_message) in
    match audio_pub self with
    | Some _ =>
        emit (AudioPut state) ;;;
        ret self
    | None =>
        p <- Provider.add_pending_message (Provider.Dict pending_message)
                                          (tts self) ;;
        ret (set_tts p self)
    end.

(** How a call of the handler ends. *)
Inductive Completion :=
| Returned
| AttributeError.   (* [_zenoh_tts_status_response_pub] was never bound *)

(** [self._zenoh_tts_status_response_pub.put(response.serialize())]. *)
Definition put_response (r : TTSStatusResponse) (self : t)
    : M (t * Completion) :=
  match _zenoh_tts_status_response_pub self with
  | Some _ =>
      emit (ResponsePut r) ;;;
      ret (self, Returned)
  | None => ret (self, AttributeError)
  end.

(** [_zenoh_tts_status_request(data)], on the deserialized request. *)
Definition _zenoh_tts_status_request (tts_status : TTSStatusRequest)
    (self : t) : M (t * Completion) :=
  logging (log_request tts_status) ;;;
  let code := req_code tts_status in
  let request_id := req_request_id tts_status in
  if code =? 2 then
    put_response
      (mkResponse (prepare_header (frame_id (req_header tts_status)))
                  request_id
                  (if tts_enabled self then 1 else 0)
                  (if tts_enabled self then "TTS Enabled" else "TTS Disabled"))
      self
  else if code =? 1 then
    let self := set_tts_enabled true self in
    logging log_enabled ;;;
    put_response
      (mkResponse (prepare_header (frame_id (req_header tts_status)))
                  request_id 1 "TTS Enabled")
      self
  else if code =? 0 then
    let self := set_tts_enabled false self in
    logging log_disabled ;;;
    put_response
      (mkResponse (prepare_header (frame_id (req_header tts_status)))
                  request_id 0 "TTS Disabled")
      self
  else ret (self, Returned).

(** [stop()]; [self.tts] is always a provider object, hence true. *)
Definition stop (self : t) : M t :=
  (if session self
   then emit SessionClose ;;; logging log_zenoh_closed
   else ret tt) ;;;
  p <- Provider.stop (tts self) ;;
  ret (set_tts p self).

(** What reaches a connector after construction. *)
Inductive Call :=
| Connect (action : string) (llm_prompt : option string) (uuid : string)
| StatusRequest (r : TTSStatusRequest)
| AudioMessage (a : AudioStatus).

Definition call (c : Call) (self : t) : M t :=
  match c with
  | Connect action llm_prompt uuid => connect action llm_prompt uuid self
  | StatusRequest r =>
      res <- _zenoh_tts_status_request r self ;;
      ret (fst res)
  | AudioMessage a => zenoh_audio_message a self
  end.

Fixpoint calls (cs : list Call) (self : t) : M t :=
  match cs with
  | [] => ret self
  | c :: rest =>
      self <- call c self ;;
      calls rest self
  end.

End Speak.

(** ** [GreetingConversationConnector] *)

Module Greeting.

(** Modelled from the spec: [ConversationState] is declared in
    [providers/greeting_conversation_state_provider.py], which is not among
    the sources; it is "an enum {CONVERSING, FINISHED, ...}".  A member of an
    [Enum] is an object of its own; its [.value] is the constant it was
    declared with. *)
Inductive ConversationState :=
| CONVERSING
| FINISHED
| OtherState (name : string).

Definition ConversationState_eqb (a b : ConversationState) : bool :=
  match a, b with
  | CONVERSING, CONVERSING => true
  | FINISHED, FINISHED => true
  | OtherState x, OtherState y => String.eqb x y
  | _, _ => false
  end.

(** A constant an enum member can be declared with. *)
Inductive Constant :=
| CStr (s : string)
| CInt (n : Z).

Definition Constant_eqb (a b : Constant) : bool :=
  match a, b with
  | CStr x, CStr y => String.eqb x y
  | CInt x, CInt y => x =? y
  | _, _ => false
  end.

(** The values found under a key of the state machine's result: [None], a
    [str] or an [int], a member of [ConversationState], a [float], a
    [dict] with string keys (latest binding first). *)
#[warnings="-register-all"]
Inductive PyValue :=
| PyNone
| PyConst (c : Constant)
| PyState (m : ConversationState)
| PyFloat (f : float)
| PyDict (entries : list (string * PyValue)).

(** A dict with string keys, latest binding first. *)
Definition Dictionary := list (string * PyValue).

(** The value bound to [key], if any. *)
Fixpoint lookup (key : string) (d : Dictionary) : option PyValue :=
  match d with
  | [] => None
  | (k, v) :: rest => if String.eqb k key then Some v else lookup key rest
  end.

(** [f == n] for a float and an int: the comparison is exact. *)
Definition float_eq_int (f : float) (n : Z) : bool :=
  match Prim2SF f with
  | S754_zero _ => n =? 0
  | S754_finite s m e =>
      let v := if s then Zneg m else Zpos m in
      if 0 <=? e then v * 2 ^ e =? n else v =? n * 2 ^ (- e)
  | _ => false
  end.

(** [a == b].  Two dicts are equal when they bind the same keys to equal
    values; a member of the enum equals itself only. *)
Fixpoint py_eqb (a b : PyValue) {struct a} : bool :=
  match a with
  | PyNone => match b with PyNone => true | _ => false end
  | PyConst x =>
      match b with
      | PyConst y => Constant_eqb x y
      | PyFloat g =>
          match x with CInt n => float_eq_int g n | CStr _ => false end
      | _ => false
      end
  | PyState x =>
      match b with PyState y => ConversationState_eqb x y | _ => false end
  | PyFloat f =>
      match b with
      | PyFloat g => PrimFloat.eqb f g
      | PyConst (CInt n) => float_eq_int f n
      | _ => false
      end
  | PyDict ea =>
      match b with
      | PyDict eb =>
          (fix same (es : list (string * PyValue)) (seen : list string)
             : bool :=
             match es with
             | [] => true
             | (k, v) :: rest =>
                 if existsb (String.eqb k) seen then same rest seen
                 else match lookup k eb with
                      | Some v' => py_eqb v v' && same rest (k :: seen)
                      | None => false
                      end
             end) ea []
          && forallb (fun kv =>
                        match lookup (fst kv) ea with
                        | Some _ => true
                        | None => false
                        end) eb
      | _ => false
      end
  end.

(** [d.get(key)]. *)
Fixpoint get (key : string) (d : Dictionary) : PyValue :=
  match d with
  | [] => PyNone
  | (k, v) :: rest => if String.eqb k key then v else get key rest
  end.

(** [d.get(key, default)]. *)
Definition get_default (key : string) (d : Dictionary) (default : PyValue)
    : PyValue :=
  match lookup key d with
  | Some v => v
  | None => default
  end.

(** What a statement can raise. *)
Inductive Exception :=
| AttributeError
| ValueError
| TypeError
| OverflowError.

(** How a call ends. *)
Inductive Completion :=
| Returned
| Raised (e : Exception).

(** [format(v, ".2f")] and [format(v, ".1f")]: a number is formatted (an
    [int] through its conversion to [float], which overflows from
    2^1024 - 2^970 on); any other value raises. *)
Definition format_fixed (v : PyValue) : Completion :=
  match v with
  | PyFloat _ => Returned
  | PyConst (CInt n) =>
      if Z.abs n <? 2 ^ 1024 - 2 ^ 970 then Returned
      else Raised OverflowError
  | PyConst (CStr _) => Raised ValueError
  | PyState _ => Raised ValueError
  | PyNone => Raised TypeError
  | PyDict _ => Raised TypeError
  end.

(** The f-string of the last statement of [tick]:
    [state_update.get('confidence', {}).get('overall', 0):.2f] and then
    [state_update.get('silence_duration', 0):.1f]. *)
Definition format_state_update (state_update : Dictionary) : Completion :=
  match get_default "confidence" state_update (PyDict []) with
  | PyDict confidence =>
      match format_fixed
              (get_default "overall" confidence (PyConst (CInt 0))) with
      | Returned =>
          format_fixed
            (get_default "silence_duration" state_update (PyConst (CInt 0)))
      | raised => raised
      end
  | _ => Raised AttributeError
  end.

(** [GreetingConversationInput], which is also the [llm_output] dict. *)
Record Input := mkInput {
  conversation_state : PyValue;
  response : string;
  confidence : float;
  speech_clarity : float
}.

(** [float(n)] for an [int] from 0 to 2^63 - 1, which a count is. *)
Definition float_of_int (n : Z) : float := PrimFloat.of_uint63 (Uint63.of_Z n).

Section Connector.

(** [ConversationState.<member>.value]. *)
Variable value : ConversationState -> Constant.

(** The conversation state machine
    ([GreetingConversationStateMachineProvider], a collaborator). *)
Variable Machine : Type.
Variable set_current_state : ConversationState -> Machine -> Machine.
Variable process_conversation : Input -> Machine -> Machine * Dictionary.
Variable update_state_without_llm : Machine -> Machine * Dictionary.

Record t := mk {
  greeting_state_provider : Machine;
  tts : Provider.t;
  tts_triggered_time : float;
  tts_duration : float
}.

(** [__init__]; [now] is [time.time()]. *)
Definition init (config : Speak.Config) (now : float)
    (instance : option Provider.t) (machine : Machine) : M t :=
  let machine := set_current_state CONVERSING machine in
  p <- Provider.singleton instance (Speak.provider_args config) ;;
  p <- Provider.start p ;;
  ret (mk machine p now 0%float).

(** [len(text.split())]. *)
Definition word_count (text : string) : Z :=
  Z.of_nat (List.length (Py.split text)).

(** [(word_count / 100.0) * 60.0]. *)
Definition estimate (text : string) : float :=
  PrimFloat.mul (PrimFloat.div (float_of_int (word_count text)) 100%float)
    60%float.

(** What both finished-state checks do when they succeed. *)
Definition notify_finished (site : LogRecord) : M unit :=
  logging site ;;;
  emit UpdateContextFinished.

(** [connect(output_interface)]; [now] is [time.time()]. *)
Definition connect (output_interface : Input) (now : float) (self : t)
    : M t :=
  logging log_conversation_state ;;;
  logging (log_greeting_response (response output_interface)) ;;;
  logging log_confidence ;;;
  logging log_speech_clarity ;;;
  let llm_output := output_interface in
  p <- Provider.add_pending_message (Provider.Str (response output_interface))
                                    (tts self) ;;
  let duration := estimate (response output_interface) in
  emit ProcessConversation ;;;
  let (machine, result) :=
    process_conversation llm_output (greeting_state_provider self) in
  logging log_conversation_response ;;;
  (if py_eqb (get "current_state" result) (PyState FINISHED)
   then notify_finished log_finished
   else ret tt) ;;;
  ret (mk machine p now duration).

(** [tick()]; [now] is the [time.time()] of the comparison.  The call ends
    in an exception when the last statement cannot format [state_update];
    the state machine has been updated by then. *)
Definition tick (now : float) (self : t) : M (t * Completion) :=
  logging log_tick ;;;
  emit (Sleep 10) ;;;
  if PrimFloat.ltb (PrimFloat.sub now (tts_triggered_time self))
       (tts_duration self)
  then
    logging log_tick_skipped ;;;
    ret (self, Returned)
  else
    emit UpdateStateWithoutLLM ;;;
    let (machine, state_update) :=
      update_state_without_llm (greeting_state_provider self) in
    (if py_eqb (get "current_state" state_update) (PyConst (value FINISHED))
     then notify_finished log_finished_in_tick
     else ret tt) ;;;
    let self :=
      mk machine (tts self) (tts_triggered_time self) (tts_duration self) in
    match format_state_update state_update with
    | Returned =>
        logging log_state_update ;;;
        ret (self, Returned)
    | Raised e => ret (self, Raised e)
    end.

(** The check of [connect]: the state in the result is the member
    [FINISHED]. *)
Definition finished_member (d : Dictionary) : bool :=
  py_eqb (get "current_state" d) (PyState FINISHED).

(** The check of [tick]: the state in the result is the value of
    [FINISHED]. *)
Definition finished_value (d : Dictionary) : bool :=
  py_eqb (get "current_state" d) (PyConst (value FINISHED)).

End Connector.

End Greeting.

(** ** More of Python's [str] and [int] *)

Module Builtins.

(** [c in chars]. *)
Fixpoint char_in (c : ascii) (chars : string) : bool :=
  match chars with
  | EmptyString => false
  | String d rest => Ascii.eqb c d || char_in c rest
  end.

(** [s.lstrip(chars)]: drops the leading characters that occur in
    [chars]. *)
Fixpoint lstrip (chars s : string) : string :=
  match s with
  | EmptyString => EmptyString
  | String c rest => if char_in c chars then lstrip chars rest else s
  end.

(** [s.split(sep)] for a separator of one character: the pieces between
    the separators, empty pieces included; never an empty list. *)
Fixpoint split_char (sep : ascii) (s : string) : list string :=
  match s with
  | EmptyString => [EmptyString]
  | String c rest =>
      if Ascii.eqb c sep then EmptyString :: split_char sep rest
      else match split_char sep rest with
           | piece :: pieces => String c piece :: pieces
           | [] => [String c EmptyString]
           end
  end.

Definition is_digit (c : ascii) : bool :=
  ((48 <=? nat_of_ascii c) && (nat_of_ascii c <=? 57))%nat.

Definition digit_value (c : ascii) : Z := Z.of_nat (nat_of_ascii c - 48).

(** The white space [int] allows around a literal: the C white space, and
    of the code points above 127 those that are white space (0x85 and
    0xA0).  The separators 0x1C to 0x1F, which [str.split] takes, are not
    among them. *)
Definition int_space (c : ascii) : bool :=
  let n := nat_of_ascii c in
  ((9 <=? n) && (n <=? 13) || (n =? 32) || (n =? 133) || (n =? 160))%nat.

(** Leading white space dropped. *)
Fixpoint lstrip_space (l : list ascii) : list ascii :=
  match l with
  | [] => []
  | c :: rest => if int_space c then lstrip_space rest else l
  end.

(** [s.strip()], on the list of characters. *)
Definition strip_space (l : list ascii) : list ascii :=
  rev (lstrip_space (rev (lstrip_space l))).

(** The digits of a decimal literal, where one underscore may stand between
    two digits: the value read and the number of digits, or [None] when the
    text is not of that form.  [acc] is the value so far, [count] the digits
    so far, [after_digit] whether the last character was a digit. *)
Fixpoint digits (l : list ascii) (acc : Z) (count : nat) (after_digit : bool)
    : option (Z * nat) :=
  match l with
  | [] => if after_digit then Some (acc, count) else None
  | c :: rest =>
      if is_digit c
      then digits rest (10 * acc + digit_value c) (S count) true
      else if Ascii.eqb c "_" && after_digit
           then digits rest acc count false
           else None
  end.

(** [sys.int_max_str_digits], at its default. *)
Definition int_max_str_digits : nat := 4300.

(** [int(s)] on a [str]: white space around, an optional sign, decimal
    digits; [None] is [ValueError]. *)
Definition int (s : string) : option Z :=
  let l := strip_space (list_ascii_of_string s) in
  let signed :=
    match l with
    | "-"%char :: body => (true, body)
    | "+"%char :: body => (false, body)
    | _ => (false, l)
    end in
  match digits (snd signed) 0 0 false with
  | Some (v, n) =>
      if (n <=? int_max_str_digits)%nat
      then Some (if fst signed then - v else v)
      else None
  | None => None
  end.

(** [[int(x) for x in pieces]]: the first [ValueError] ends it. *)
Fixpoint ints (pieces : list string) : option (list Z) :=
  match pieces with
  | [] => Some []
  | x :: rest =>
      match int x with
      | None => None
      | Some n =>
          match ints rest with
          | None => None
          | Some ns => Some (n :: ns)
          end
      end
  end.

End Builtins.

(** ** [runtime/version.py] *)

Module Version.

Definition latest_runtime_version : string := "v1.0.2".

Definition get_runtime_version : string := latest_runtime_version.

(** The [ValueError]s of the module, by message. *)
Inductive Error :=
| VersionCannotBeNone
| InvalidLiteral                          (* raised by [int] *)
| MajorVersionMismatch (expected got : Z)
| InvalidVersionFormat
| Incompatible (config_version : option string) (runtime_version : string)
               (cause : Error).

Inductive Outcome :=
| Returns (b : bool)
| Raises (e : Error).

(** The records the module logs. *)
Inductive Record :=
| warning_minor_mismatch (expected got : Z)
| info_loading (config_name : string) (config_version : option string)
| info_runtime_version (runtime_version : string)
| info_compatible (config_name : string)
| error_check_failed (config_name : string) (e : Error).

(** [while len(parts) < 3: parts.append(0)]. *)
Definition pad (parts : list Z) : list Z :=
  (parts ++ repeat 0 (3 - List.length parts))%list.

(** [int(x) for x in ver.split(".")]. *)
Definition parts_of (ver : string) : option (list Z) :=
  Builtins.ints (Builtins.split_char "." ver).

(** The body of the [try] of [is_version_supported]; [latest] is the module
    global [latest_runtime_version], which the tests patch.  The padded lists
    have three elements at least, so indexing cannot fail. *)
Definition compare_parts (latest version : string) : Outcome * list Record :=
  let supported_ver := Builtins.lstrip "v" latest in
  let input_ver := Builtins.lstrip "v" version in
  match parts_of supported_ver with
  | None => (Raises InvalidLiteral, [])
  | Some supported_parts =>
      match parts_of input_ver with
      | None => (Raises InvalidLiteral, [])
      | Some input_parts =>
          let supported_parts := pad supported_parts in
          let input_parts := pad input_parts in
          if negb (nth 0 supported_parts 0 =? nth 0 input_parts 0) then
            (Raises (MajorVersionMismatch (nth 0 supported_parts 0)
                       (nth 0 input_parts 0)), [])
          else if negb (nth 1 supported_parts 0 =? nth 1 input_parts 0) then
            (Returns true,
             [warning_minor_mismatch (nth 1 supported_parts 0)
                (nth 1 input_parts 0)])
          else (Returns true, [])
      end
  end.

(** [is_version_supported(version)]: every [ValueError] of the body is
    caught and raised again as "Invalid version format". *)
Definition is_version_supported (latest : string) (version : option string)
    : Outcome * list Record :=
  match version with
  | None => (Raises VersionCannotBeNone, [])
  | Some v =>
      match compare_parts latest v with
      | (Raises _, logged) => (Raises InvalidVersionFormat, logged)
      | returned => returned
      end
  end.

(** [verify_runtime_version(config_version, config_name)].  The handler of
    [Exception] is not modelled: [is_version_supported] raises nothing but
    [ValueError]. *)
Definition verify_runtime_version (latest : string)
    (config_version : option string) (config_name : string)
    : Outcome * list Record :=
  let runtime_version := latest in
  let logged :=
    [info_loading config_name config_version;
     info_runtime_version runtime_version] in
  match is_version_supported latest config_version with
  | (Returns result, inner) =>
      (Returns result,
       (logged ++ inner
        ++ (if result then [info_compatible config_name] else []))%list)
  | (Raises e, inner) =>
      (Raises (Incompatible config_version runtime_version e),
       (logged ++ inner ++ [error_check_failed config_name e])%list)
  end.

End Version.

(** ** Binary64 numbers *)

(** A number that is not below zero: a zero of either sign, a positive
    number, or NaN. *)
Definition not_negative (x : spec_float) : bool :=
  match x with
  | S754_finite true _ _ | S754_infinity true => false
  | _ => true
  end.

(** ** Sample objects *)

(** [Args] with another sample rate. *)
Definition with_rate (r : Z) (a : Provider.Args) : Provider.Args :=
  Provider.mkArgs (Provider.url a) (Provider.api_key a) (Provider.voice_id a)
    (Provider.model_id a) (Provider.output_format a) r
    (Provider.enable_tts_interrupt a).

(** [KokoroTTSProvider()] followed by [start()], in an empty world. *)
Definition started_provider : Provider.t * World :=
  (p <- Provider.init Provider.defaults ;; Provider.start p) world0.

(** [KokoroTTSProvider()] alone: not running. *)
Definition fresh_provider : Provider.t * World :=
  Provider.init Provider.defaults world0.

(** [configure(voice_id="new_voice", output_format="wav")]. *)
Definition new_voice_args : Provider.Args :=
  Provider.mkArgs "http://127.0.0.1:8880/v1" None "new_voice" "kokoro" "wav"
    24000 false.

(** A connector built from [config] when the transport opens and no
    provider exists yet. *)
Definition new_connector (config : Speak.Config) : Speak.t * World :=
  Speak.init config Speak.Succeeds "uuid-0" None world0.

(** [SpeakKokoroTTSConfig(silence_rate=n)]. *)
Definition silence_config (n : Z) : Speak.Config :=
  Speak.mkConfig "af_bella" "kokoro" "pcm" 24000 false n None.

Definition text_prompt : option string := Some "INPUT: Text: Hello".
Definition voice_prompt : option string := Some "INPUT: Voice: Hello".

Definition sample_request (code : Z) : TTSStatusRequest :=
  mkRequest (mkHeader "test_frame") "test_request_id" code.

(** The stream [configure] builds when it restarts: a new object made from
    the arguments, started. *)
Definition restarted_stream (a : Provider.Args) (id : nat) : Stream.t :=
  Stream.mk id (Provider.url a) (Provider.model_id a) (Provider.voice_id a)
    (Provider.output_format a) (Provider.rate a) (Provider.api_key a)
    (Provider.enable_tts_interrupt a) true [] None.

(** A [connect] call made with a prompt that is set and lacks the voice
    marker. *)
Definition quiet_call (c : Speak.Call) : bool :=
  match c with
  | Speak.Connect _ llm_prompt _ => Speak.not_voice llm_prompt
  | _ => false
  end.

(** The log of [n] skipped calls in a row, the first one made with the
    counter at [counter]. *)
Fixpoint skip_records (rate counter : Z) (n : nat) : list event :=
  match n with
  | O => []
  | S k =>
      Log (log_skipping rate (counter + 1))
      :: skip_records rate (counter + 1) k
  end.

(** Two [connect] calls made on text input. *)
Definition two_quiet_calls : list Speak.Call :=
  [Speak.Connect "Hello, world!" text_prompt "uuid-1";
   Speak.Connect "Hello, world!" text_prompt "uuid-2"].

(** The response to request [r] with the given code and status text. *)
Definition reply (r : TTSStatusRequest) (code : Z) (status : string)
    : TTSStatusResponse :=
  mkResponse (mkHeader (frame_id (req_header r))) (req_request_id r) code
    status.


(** The bounds of the silence counter. *)
Definition counter_in_bounds (self : Speak.t) : Prop :=
  0 <= Speak.silence_counter self <= Speak.self_silence_rate self.

(** A state machine without state that always reports the member
    [FINISHED]. *)
Definition reports_member (m : unit) : unit * Greeting.Dictionary :=
  (m, [("current_state", Greeting.PyState Greeting.FINISHED)]).

(** Member values as lower-case names. *)
Definition lower_value (m : Greeting.ConversationState) : Greeting.Constant :=
  match m with
  | Greeting.CONVERSING => Greeting.CStr "conversing"
  | Greeting.FINISHED => Greeting.CStr "finished"
  | Greeting.OtherState name => Greeting.CStr name
  end.

(** A greeting turn of six words. *)
Definition six_words : Greeting.Input :=
  Greeting.mkInput (Greeting.PyState Greeting.CONVERSING)
    "Hello there, how are you today?" 1 1.

(** A greeting connector that spoke [six_words] at time 100. *)
Definition spoke_at_100 : Greeting.t unit * World :=
  (g <- Greeting.init unit (fun _ m => m) Speak.default_config 0 None tt ;;
   Greeting.connect unit (fun _ => reports_member) six_words 100 g) world0.


(** A response of [n] words. *)
Fixpoint words (n : nat) : string :=
  match n with
  | O => EmptyString
  | S k => "word " ++ words k
  end.

(** A state machine without state whose result lacks the confidence
    scores: ["confidence"] is bound to [None]. *)
Definition reports_no_confidence (m : unit) : unit * Greeting.Dictionary :=
  (m, [("current_state", Greeting.PyConst (Greeting.CStr "conversing"));
       ("confidence", Greeting.PyNone)]).

(** The texts handed to [store_robot_message] in a trace, oldest first. *)
Fixpoint stored (tr : list event) : list string :=
  match tr with
  | [] => []
  | StoreRobotMessage t :: rest => t :: stored rest
  | _ :: rest => stored rest
  end.

(** The requests handed to a stream's [add_request] in a trace. *)
Fixpoint enqueued (tr : list event) : list PendingMessage :=
  match tr with
  | [] => []
  | StreamAddRequest _ m :: rest => m :: enqueued rest
  | _ :: rest => enqueued rest
  end.

(** The audio statuses put on [robot/status/audio] in a trace. *)
Fixpoint audio_puts (tr : list event) : list AudioStatus :=
  match tr with
  | [] => []
  | AudioPut a :: rest => a :: audio_puts rest
  | _ :: rest => audio_puts rest
  end.

(** The streams started in a trace, by identity. *)
Fixpoint stream_starts (tr : list event) : list nat :=
  match tr with
  | [] => []
  | StreamStart id :: rest => id :: stream_starts rest
  | _ :: rest => stream_starts rest
  end.

(** A [connect] call, of any kind. *)
Definition is_connect (c : Speak.Call) : bool :=
  match c with
  | Speak.Connect _ _ _ => true
  | _ => false
  end.

(** The pending message the provider builds for [txt]. *)
Definition pending_of (txt : string) (p : Provider.t) : PendingMessage :=
  mkPending txt (Provider._voice_id p) (Provider._model_id p)
    (Provider._output_format p).

(** A provider that runs with another voice than the default. *)
Definition other_voice_provider : Provider.t * World :=
  (p <- Provider.init new_voice_args ;; Provider.start p) world0.

(** The callbacks set on streams in a trace: stream identity and
    callback. *)
Fixpoint callbacks_set (tr : list event) : list (nat * nat) :=
  match tr with
  | [] => []
  | StreamSetCallback id cb :: rest => (id, cb) :: callbacks_set rest
  | _ :: rest => callbacks_set rest
  end.

(** ** Traces *)

Local Open Scope list_scope.

Lemma created_messages_app a b :
  created_messages (a ++ b) = (created_messages a + created_messages b)%nat.
Proof.
  induction a as [|e a IH]; simpl; [reflexivity|].
  destruct e as [r| | | | | | | | | | | | |]; try exact IH.
  destruct r; simpl; rewrite IH; reflexivity.
Qed.

Lemma responses_app a b : responses (a ++ b) = responses a ++ responses b.
Proof.
  induction a as [|e a IH]; simpl; [reflexivity|].
  destruct e; simpl; rewrite IH; reflexivity.
Qed.

Lemma state_updates_app a b :
  state_updates (a ++ b) = (state_updates a + state_updates b)%nat.
Proof.
  induction a as [|e a IH]; simpl; [reflexivity|].
  destruct e; simpl; rewrite IH; reflexivity.
Qed.

Lemma notifications_app a b :
  notifications (a ++ b) = (notifications a + notifications b)%nat.
Proof.
  induction a as [|e a IH]; simpl; [reflexivity|].
  destruct e; simpl; rewrite IH; reflexivity.
Qed.

(** Unfolds the monad and the stream's methods. *)
Ltac run :=
  unfold bind, ret, emit, logging, new_object, Stream.new, Stream.start,
    Stream.stop, Stream.add_request, Stream.set_tts_state_callback,
    Provider.set_audio_stream, Provider.set_running;
  simpl.

(** Brings a trace to the form [old ++ added]. *)
Ltac tidy := simpl; rewrite <- ?app_assoc; simpl.

(** ** Python strings *)

Lemma prefix_iff n : forall h,
  String.prefix n h = true <-> exists b, h = (n ++ b)%string.
Proof.
  induction n as [|c n IH]; intros h.
  - split; [intros _; exists h; reflexivity | destruct h; reflexivity].
  - destruct h as [|d h]; simpl.
    + split; [discriminate | intros [b Hb]; discriminate].
    + destruct (ascii_dec c d) as [->|Hne].
      * rewrite IH. split; intros [b Hb]; exists b; congruence.
      * split; [discriminate | intros [b Hb]; congruence].
Qed.

Lemma str_in_eq n h :
  Py.str_in n h
  = if String.prefix n h then true
    else match h with
         | EmptyString => false
         | String _ rest => Py.str_in n rest
         end.
Proof. destruct h; reflexivity. Qed.

(** [str_in] is the substring test. *)
Lemma str_in_iff n : forall h,
  Py.str_in n h = true <-> exists a b, h = (a ++ n ++ b)%string.
Proof.
  induction h as [|c h IH]; rewrite str_in_eq.
  - destruct (String.prefix n EmptyString) eqn:Hp.
    + apply prefix_iff in Hp. destruct Hp as [b Hb].
      split; [intros _; exists EmptyString, b; exact Hb | reflexivity].
    + split; [discriminate|]. intros (a & b & Hab).
      destruct a; [|discriminate]. simpl in Hab.
      assert (String.prefix n EmptyString = true)
        by (apply prefix_iff; exists b; exact Hab).
      congruence.
  - destruct (String.prefix n (String c h)) eqn:Hp.
    + apply prefix_iff in Hp. destruct Hp as [b Hb].
      split; [intros _; exists EmptyString, b; exact Hb | reflexivity].
    + rewrite IH. split; intros (a & b & Hab).
      * exists (String c a), b. simpl. rewrite Hab. reflexivity.
      * destruct a as [|d a]; simpl in Hab.
        -- assert (String.prefix n (String c h) = true)
             by (apply prefix_iff; exists b; exact Hab).
           congruence.
        -- exists a, b. congruence.
Qed.

Example split_words :
  Py.split "  Hello   there,  how are you " =
  ["Hello"; "there,"; "how"; "are"; "you"]%string.
Proof. reflexivity. Qed.

Example split_blank : Py.split "   " = [].
Proof. reflexivity. Qed.

Example text_prompt_is_quiet :
  Speak.not_voice text_prompt = true /\ Speak.is_voice text_prompt = false.
Proof. split; reflexivity. Qed.

Example voice_prompt_is_voice :
  Speak.not_voice voice_prompt = false /\ Speak.is_voice voice_prompt = true.
Proof. split; reflexivity. Qed.

(** ** Python equality *)

Lemma opt_str_eqb_eq a b : Py.opt_str_eqb a b = true <-> a = b.
Proof.
  destruct a as [x|], b as [y|]; simpl; try (split; congruence).
  rewrite String.eqb_eq. split; congruence.
Qed.

Lemma opt_str_eqb_refl a : Py.opt_str_eqb a a = true.
Proof. apply opt_str_eqb_eq. reflexivity. Qed.

(** ** The provider *)

(** [restart_needed] is false exactly when the six compared arguments equal
    what the provider holds; [rate] is not among them. *)
Lemma restart_needed_false_iff a self :
  Provider.restart_needed a self = false <->
  Provider.url a = Stream._url (Provider._audio_stream self)
  /\ Provider.api_key a = Provider.self_api_key self
  /\ Provider.voice_id a = Provider._voice_id self
  /\ Provider.model_id a = Provider._model_id self
  /\ Provider.output_format a = Provider._output_format self
  /\ Provider.enable_tts_interrupt a = Provider._enable_tts_interrupt self.
Proof.
  unfold Provider.restart_needed.
  rewrite !orb_false_iff, !negb_false_iff, !String.eqb_eq, opt_str_eqb_eq,
    Bool.eqb_true_iff.
  tauto.
Qed.

(** Equal arguments, whatever the rate: [configure] returns at once. *)
Lemma configure_same a self w :
  Provider.restart_needed a self = false ->
  Provider.configure a self w = (self, w).
Proof.
  intros H. unfold Provider.configure. rewrite H. reflexivity.
Qed.

(** A restart while stopped. *)
Lemma configure_restart_stopped a self w :
  Provider.restart_needed a self = true ->
  Provider.running self = false ->
  Provider.configure a self w =
  (Provider.mk (Provider.api_key a) false (restarted_stream a (next_id w))
     (Provider.voice_id a) (Provider.model_id a) (Provider.output_format a)
     (Provider.enable_tts_interrupt a),
   mkWorld (S (next_id w))
     (trace w ++ [StreamNew (next_id w); StreamStart (next_id w)])).
Proof.
  intros Hneed Hrun. unfold Provider.configure. rewrite Hneed, Hrun.
  run. rewrite Hrun, <- app_assoc. reflexivity.
Qed.

(** A restart while running: the old stream is stopped first, and the
    running flag stays as [stop] left it. *)
Lemma configure_restart_running a self w :
  Provider.restart_needed a self = true ->
  Provider.running self = true ->
  Provider.configure a self w =
  (Provider.mk (Provider.api_key a) false (restarted_stream a (next_id w))
     (Provider.voice_id a) (Provider.model_id a) (Provider.output_format a)
     (Provider.enable_tts_interrupt a),
   mkWorld (S (next_id w))
     (trace w ++ [StreamStop (Stream.ident (Provider._audio_stream self));
                  StreamNew (next_id w); StreamStart (next_id w)])).
Proof.
  intros Hneed Hrun. unfold Provider.configure, Provider.stop.
  rewrite Hneed, Hrun. run. rewrite <- !app_assoc. reflexivity.
Qed.

(** After a restart the provider holds the new arguments, the rate too. *)
Lemma configure_restart_active a self w :
  Provider.restart_needed a self = true ->
  Provider.active (fst (Provider.configure a self w)) = a.
Proof.
  intros Hneed. destruct (Provider.running self) eqn:Hrun.
  - rewrite configure_restart_running by assumption. destruct a; reflexivity.
  - rewrite configure_restart_stopped by assumption. destruct a; reflexivity.
Qed.

(** C5.  While the provider is not running, [add_pending_message] drops the
    message, text or dict alike: it returns normally, the provider object is
    the one it was given (so the queue and its depth are unchanged and no
    request was enqueued), no object is constructed, and the only effect is
    the warning in the log. *)
Theorem add_pending_message_not_running message self w :
  Provider.running self = false ->
  Provider.add_pending_message message self w
  = (self, mkWorld (next_id w) (trace w ++ [Log log_not_running_add]))
  /\ Provider.get_pending_message_count
       (fst (Provider.add_pending_message message self w))
     = Provider.get_pending_message_count self.
Proof.
  intros Hrun. unfold Provider.add_pending_message. rewrite Hrun.
  split; reflexivity.
Qed.

Lemma add_pending_message_not_running_witness :
  Provider.running (fst fresh_provider) = false
  /\ Provider.get_pending_message_count
       (fst (Provider.add_pending_message (Provider.Str "Hello")
               (fst fresh_provider) (snd fresh_provider)))
     = 0.
Proof.
  split; [reflexivity|].
  rewrite (proj2 (add_pending_message_not_running (Provider.Str "Hello")
                    (fst fresh_provider) (snd fresh_provider) eq_refl)).
  reflexivity.
Defined.

(** While the provider runs, the message is enqueued on the stream. *)
Lemma add_pending_message_running_dict m self w :
  Provider.running self = true ->
  Provider.get_pending_message_count
    (fst (Provider.add_pending_message (Provider.Dict m) self w))
  = Provider.get_pending_message_count self + 1.
Proof.
  intros Hrun. unfold Provider.add_pending_message. rewrite Hrun. run.
  unfold Provider.get_pending_message_count, Stream.qsize. simpl.
  rewrite List.length_app. simpl. lia.
Qed.

(** C1, at the input where the code departs from it.  A configuration that
    differs from the active one in the sample rate alone is not applied:
    [configure] returns without restarting (same provider, same stream, no
    effect), and the rate the provider works with afterwards is the old one,
    not the one asked for. *)
Theorem configure_ignores_rate_change self r w :
  r <> Stream.rate (Provider._audio_stream self) ->
  with_rate r (Provider.active self) <> Provider.active self
  /\ Provider.configure (with_rate r (Provider.active self)) self w = (self, w)
  /\ Provider.rate
       (Provider.active
          (fst (Provider.configure (with_rate r (Provider.active self)) self w)))
     <> r.
Proof.
  intros Hr.
  assert (Hsame : Provider.restart_needed (with_rate r (Provider.active self))
                    self = false).
  { apply restart_needed_false_iff. simpl. tauto. }
  split; [|split].
  - intros Heq. apply Hr.
    change r with (Provider.rate (with_rate r (Provider.active self))).
    rewrite Heq. reflexivity.
  - apply configure_same, Hsame.
  - rewrite configure_same by exact Hsame. simpl. congruence.
Qed.

Lemma configure_ignores_rate_change_witness :
  Provider.configure (with_rate 48000 Provider.defaults) (fst started_provider)
    (snd started_provider)
  = started_provider
  /\ Stream.rate (Provider._audio_stream (fst started_provider)) = 24000.
Proof.
  split; [|reflexivity].
  assert (H : 48000 <> Stream.rate (Provider._audio_stream (fst started_provider)))
    by (vm_compute; discriminate).
  exact (proj1 (proj2 (configure_ignores_rate_change (fst started_provider)
                         48000 (snd started_provider) H))).
Defined.

(** C2 fails on the code: a running default provider reconfigured with
    another voice and format is not running when [configure] returns, and the
    message added next is dropped. *)
Lemma configure_while_running_counterexample :
  Provider.running (fst started_provider) = true
  /\ Provider.restart_needed new_voice_args (fst started_provider) = true
  /\ Provider.running
       (fst (Provider.configure new_voice_args (fst started_provider)
               (snd started_provider)))
     = false
  /\ Provider.get_pending_message_count
       (fst ((p <- Provider.configure new_voice_args (fst started_provider) ;;
              Provider.add_pending_message (Provider.Str "Hello") p)
               (snd started_provider)))
     = 0.
Proof. repeat split. Qed.

(** C2, amended.  When [configure] is called on a running provider with
    arguments that require a restart, the running flag goes from true to
    false and is false when the call returns, although the new stream has
    been started; every [add_pending_message] made afterwards is dropped with
    the warning (until [start] is called). *)
Theorem configure_while_running_stops a self w :
  Provider.running self = true ->
  Provider.restart_needed a self = true ->
  Provider.running (fst (Provider.configure a self w)) = false
  /\ Stream.started (Provider._audio_stream (fst (Provider.configure a self w)))
     = true
  /\ forall message w',
       Provider.add_pending_message message
         (fst (Provider.configure a self w)) w'
       = (fst (Provider.configure a self w),
          mkWorld (next_id w') (trace w' ++ [Log log_not_running_add])).
Proof.
  intros Hrun Hneed.
  rewrite configure_restart_running by assumption. simpl.
  split; [reflexivity|]. split; [reflexivity|].
  intros message w'. unfold Provider.add_pending_message. reflexivity.
Qed.

Lemma configure_while_running_stops_witness :
  Provider.running
    (fst (Provider.configure new_voice_args (fst started_provider)
            (snd started_provider)))
  = false.
Proof.
  exact (proj1 (configure_while_running_stops new_voice_args
                  (fst started_provider) (snd started_provider)
                  eq_refl eq_refl)).
Defined.

(** [start] brings such a provider back: messages are accepted again. *)
Lemma start_after_configure a self w w' :
  Provider.running self = true ->
  Provider.restart_needed a self = true ->
  Provider.running
    (fst (Provider.start (fst (Provider.configure a self w)) w')) = true.
Proof.
  intros Hrun Hneed. rewrite configure_restart_running by assumption.
  reflexivity.
Qed.

(** ** The speak connector *)

Lemma connect_disabled action llm_prompt uuid self w :
  Speak.tts_enabled self = false ->
  Speak.connect action llm_prompt uuid self w
  = (self, mkWorld (next_id w) (trace w ++ [Log log_tts_disabled])).
Proof.
  intros H. unfold Speak.connect. rewrite H. reflexivity.
Qed.

Lemma connect_skip action llm_prompt uuid self w :
  Speak.tts_enabled self = true ->
  Speak.skips llm_prompt self = true ->
  Speak.connect action llm_prompt uuid self w
  = (Speak.set_silence_counter (Speak.silence_counter self + 1) self,
     mkWorld (next_id w)
       (trace w ++ [Log (log_skipping (Speak.self_silence_rate self)
                           (Speak.silence_counter self + 1))])).
Proof.
  intros He Hs. unfold Speak.connect. rewrite He, Hs. reflexivity.
Qed.

(** An accepted call: the counter is reset, one pending message is built,
    and it is either published or handed to the provider. *)
Lemma connect_accept action llm_prompt uuid self w :
  Speak.tts_enabled self = true ->
  Speak.skips llm_prompt self = false ->
  Speak.silence_counter (fst (Speak.connect action llm_prompt uuid self w)) = 0
  /\ Speak.self_silence_rate (fst (Speak.connect action llm_prompt uuid self w))
     = Speak.self_silence_rate self
  /\ Speak.tts_enabled (fst (Speak.connect action llm_prompt uuid self w))
     = true
  /\ created_messages (trace (snd (Speak.connect action llm_prompt uuid self w)))
     = S (created_messages (trace w)).
Proof.
  intros He Hs. unfold Speak.connect. rewrite He, Hs. simpl.
  unfold Provider.create_pending_message, Provider.add_pending_message.
  destruct (Speak.is_voice llm_prompt), (Speak.audio_pub self),
    (Provider.running (Speak.tts self)); run;
    rewrite ?created_messages_app; simpl; repeat split; auto; lia.
Qed.

(** A run of quiet calls that the counter has room for is skipped whole. *)
Lemma skip_run cs : forall self w,
  Speak.tts_enabled self = true ->
  0 <= Speak.silence_counter self ->
  Speak.silence_counter self + Z.of_nat (List.length cs)
    <= Speak.self_silence_rate self ->
  Forall (fun c => quiet_call c = true) cs ->
  Speak.calls cs self w
  = (Speak.set_silence_counter
       (Speak.silence_counter self + Z.of_nat (List.length cs)) self,
     mkWorld (next_id w)
       (trace w ++ skip_records (Speak.self_silence_rate self)
                     (Speak.silence_counter self) (List.length cs))).
Proof.
  induction cs as [|c cs IH]; intros self w He Hc Hroom Hq.
  - simpl. rewrite Z.add_0_r, app_nil_r. destruct self, w; reflexivity.
  - inversion Hq as [|? ? Hc1 Hrest]; subst.
    destruct c as [action llm_prompt uuid| |]; try discriminate.
    simpl in Hc1. cbn [List.length] in Hroom. rewrite Nat2Z.inj_succ in Hroom.
    cbn [Speak.calls Speak.call]. unfold bind at 1.
    rewrite connect_skip; [|assumption|].
    + rewrite IH; cbn [Speak.set_silence_counter Speak.silence_counter
                        Speak.self_silence_rate Speak.tts_enabled];
        try assumption; try lia.
      cbn [List.length skip_records next_id trace]. rewrite Nat2Z.inj_succ.
      rewrite <- app_assoc. cbn [app].
      replace (Speak.silence_counter self + 1 + Z.of_nat (List.length cs))
        with (Speak.silence_counter self + Z.succ (Z.of_nat (List.length cs)))
        by lia.
      reflexivity.
    + unfold Speak.skips. rewrite Hc1.
      rewrite andb_true_r, andb_true_iff, !Z.ltb_lt. lia.
Qed.

Lemma created_messages_skip_records rate n : forall counter,
  created_messages (skip_records rate counter n) = 0%nat.
Proof.
  induction n as [|n IH]; intros counter; simpl; [reflexivity|apply IH].
Qed.

Lemma length_firstn_le {A} (n : nat) (l : list A) :
  (n <= List.length l)%nat -> List.length (firstn n l) = n.
Proof. intros H. rewrite length_firstn. lia. Qed.

Lemma Forall_firstn_quiet n (cs : list Speak.Call) :
  Forall (fun c => quiet_call c = true) cs ->
  Forall (fun c => quiet_call c = true) (firstn n cs).
Proof.
  intros H. rewrite <- (firstn_skipn n cs) in H.
  apply Forall_app in H. exact (proj1 H).
Qed.

(** C3.  With [silence_rate] = N > 0, the counter at 0 and speech enabled,
    let N [connect] calls arrive whose prompt is set and lacks the voice
    marker, and then one more call of any kind.  The first N calls are
    skipped: after the n-th of them (1 <= n <= N) the connector is the
    initial one with [silence_counter] = n, the trace has grown by the n
    skip records only, and no pending message has been created.  The
    (N+1)-th call is accepted: it leaves [silence_counter] at 0 and creates
    exactly one pending message. *)
Theorem silence_rate_property self cs action llm_prompt uuid w :
  Speak.tts_enabled self = true ->
  0 < Speak.self_silence_rate self ->
  Speak.silence_counter self = 0 ->
  Z.of_nat (List.length cs) = Speak.self_silence_rate self ->
  Forall (fun c => quiet_call c = true) cs ->
  (forall n, (1 <= n <= List.length cs)%nat ->
     Speak.calls (firstn n cs) self w
     = (Speak.set_silence_counter (Z.of_nat n) self,
        mkWorld (next_id w)
          (trace w ++ skip_records (Speak.self_silence_rate self) 0 n))
     /\ created_messages (trace (snd (Speak.calls (firstn n cs) self w)))
        = created_messages (trace w))
  /\ Speak.silence_counter
       (fst ((s <- Speak.calls cs self ;;
              Speak.connect action llm_prompt uuid s) w))
     = 0
  /\ created_messages
       (trace (snd ((s <- Speak.calls cs self ;;
                     Speak.connect action llm_prompt uuid s) w)))
     = S (created_messages (trace w)).
Proof.
  intros He Hrate Hc Hlen Hq.
  assert (Hprefix : forall n, (n <= List.length cs)%nat ->
            Speak.calls (firstn n cs) self w
            = (Speak.set_silence_counter (Z.of_nat n) self,
               mkWorld (next_id w)
                 (trace w ++ skip_records (Speak.self_silence_rate self) 0 n))).
  { intros n Hn.
    rewrite skip_run; rewrite ?length_firstn_le by exact Hn;
      try assumption; try lia.
    - rewrite Hc. reflexivity.
    - apply Forall_firstn_quiet, Hq. }
  split.
  - intros n [_ Hn]. split; [apply Hprefix, Hn|].
    rewrite Hprefix by exact Hn. simpl.
    rewrite created_messages_app, created_messages_skip_records. lia.
  - unfold bind. specialize (Hprefix (List.length cs) (Nat.le_refl _)).
    rewrite firstn_all in Hprefix. rewrite Hprefix.
    assert (Hfull : Speak.skips llm_prompt
              (Speak.set_silence_counter (Z.of_nat (List.length cs)) self)
            = false).
    { unfold Speak.skips. simpl. rewrite Hlen, Z.ltb_irrefl, andb_false_r.
      reflexivity. }
    destruct (connect_accept action llm_prompt uuid
                (Speak.set_silence_counter (Z.of_nat (List.length cs)) self)
                (mkWorld (next_id w)
                   (trace w ++ skip_records (Speak.self_silence_rate self) 0
                                 (List.length cs)))
                He Hfull) as (H0 & _ & _ & H1).
    split; [exact H0|]. rewrite H1. simpl.
    rewrite created_messages_app, created_messages_skip_records. lia.
Qed.

(** C8.  With speech enabled and no prompt ([llm_prompt] is [None]), the
    skip branch of [connect] is not taken, whatever [silence_rate] and
    [silence_counter] are: the call is accepted, creates one pending message
    and leaves [silence_counter] at 0. *)
Theorem connect_without_prompt action uuid self w :
  Speak.tts_enabled self = true ->
  Speak.skips None self = false
  /\ Speak.silence_counter (fst (Speak.connect action None uuid self w)) = 0
  /\ created_messages (trace (snd (Speak.connect action None uuid self w)))
     = S (created_messages (trace w)).
Proof.
  intros He.
  assert (Hs : Speak.skips None self = false).
  { unfold Speak.skips. simpl. apply andb_false_r. }
  destruct (connect_accept action None uuid self w He Hs) as (H0 & _ & _ & H1).
  auto.
Qed.

Lemma silence_rate_property_witness :
  Speak.silence_counter
    (fst ((s <- Speak.calls two_quiet_calls
                  (fst (new_connector (silence_config 2))) ;;
           Speak.connect "Hello, world!" text_prompt "uuid-3" s)
            (snd (new_connector (silence_config 2)))))
  = 0.
Proof.
  refine (proj1 (proj2 (silence_rate_property
                          (fst (new_connector (silence_config 2)))
                          two_quiet_calls "Hello, world!" text_prompt "uuid-3"
                          (snd (new_connector (silence_config 2)))
                          eq_refl _ eq_refl eq_refl _))).
  - vm_compute. reflexivity.
  - repeat constructor.
Defined.

Lemma connect_without_prompt_witness :
  Speak.silence_counter
    (fst (Speak.connect "Hello, world!" None "uuid-1"
            (fst (new_connector (silence_config 2)))
            (snd (new_connector (silence_config 2)))))
  = 0.
Proof.
  exact (proj1 (proj2 (connect_without_prompt "Hello, world!" "uuid-1"
                         (fst (new_connector (silence_config 2)))
                         (snd (new_connector (silence_config 2)))
                         eq_refl))).
Defined.

(** *** The control requests *)

(** The handler touches nothing but [tts_enabled]. *)
Lemma status_request_frame r self w :
  exists b,
    fst (fst (Speak._zenoh_tts_status_request r self w))
    = Speak.set_tts_enabled b self.
Proof.
  unfold Speak._zenoh_tts_status_request, Speak.put_response.
  destruct self as [rate counter sess apub [rpub|] status p enabled];
    destruct (req_code r =? 2), (req_code r =? 1), (req_code r =? 0); run;
    try (exists enabled; reflexivity);
    try (exists true; reflexivity); exists false; reflexivity.
Qed.

(** C10.  A control request whose code is none of 0, 1 and 2 is only
    logged: the handler returns normally, puts no response and leaves the
    connector, [tts_enabled] included, as it was. *)
Theorem status_request_unknown_code r self w :
  req_code r <> 0 -> req_code r <> 1 -> req_code r <> 2 ->
  Speak._zenoh_tts_status_request r self w
  = ((self, Speak.Returned),
     mkWorld (next_id w) (trace w ++ [Log (log_request r)]))
  /\ responses (trace (snd (Speak._zenoh_tts_status_request r self w)))
     = responses (trace w).
Proof.
  intros H0 H1 H2. unfold Speak._zenoh_tts_status_request.
  apply Z.eqb_neq in H0, H1, H2. rewrite H0, H1, H2. run.
  split; [reflexivity|].
  rewrite responses_app. simpl. apply app_nil_r.
Qed.

Lemma status_request_unknown_code_witness :
  Speak.tts_enabled
    (fst (fst (Speak._zenoh_tts_status_request (sample_request 3)
                 (fst (new_connector Speak.default_config))
                 (snd (new_connector Speak.default_config)))))
  = true.
Proof.
  rewrite (proj1 (status_request_unknown_code (sample_request 3)
                    (fst (new_connector Speak.default_config))
                    (snd (new_connector Speak.default_config))
                    ltac:(discriminate) ltac:(discriminate)
                    ltac:(discriminate))).
  reflexivity.
Defined.




(** *** The silence counter *)

Lemma bind_run {A B} (c : M A) (k : A -> M B) w :
  bind c k w = k (fst (c w)) (snd (c w)).
Proof. unfold bind. destruct (c w). reflexivity. Qed.

(** A new connector starts with the counter at 0 and the configured rate. *)
Lemma init_silence config zenoh uuid instance w :
  Speak.silence_counter (fst (Speak.init config zenoh uuid instance w)) = 0
  /\ Speak.self_silence_rate (fst (Speak.init config zenoh uuid instance w))
     = Speak.silence_rate config
  /\ Speak.tts_enabled (fst (Speak.init config zenoh uuid instance w)) = true.
Proof.
  unfold Speak.init. rewrite !bind_run. repeat split.
Qed.

(** No call changes the rate. *)
Lemma call_silence_rate c self w :
  Speak.self_silence_rate (fst (Speak.call c self w))
  = Speak.self_silence_rate self.
Proof.
  destruct c as [action llm_prompt uuid|r|a]; simpl.
  - destruct (Speak.tts_enabled self) eqn:He.
    + destruct (Speak.skips llm_prompt self) eqn:Hs.
      * rewrite connect_skip by assumption. reflexivity.
      * apply (connect_accept action llm_prompt uuid self w He Hs).
    + rewrite connect_disabled by assumption. reflexivity.
  - rewrite bind_run. simpl.
    destruct (status_request_frame r self w) as [b Hb]. rewrite Hb.
    reflexivity.
  - reflexivity.
Qed.

(** Every call keeps the counter within its bounds. *)
Lemma call_counter_in_bounds c self w :
  counter_in_bounds self -> counter_in_bounds (fst (Speak.call c self w)).
Proof.
  unfold counter_in_bounds. intros Hin.
  rewrite call_silence_rate.
  destruct c as [action llm_prompt uuid|r|a]; simpl.
  - destruct (Speak.tts_enabled self) eqn:He.
    + destruct (Speak.skips llm_prompt self) eqn:Hs.
      * rewrite connect_skip by assumption. simpl.
        unfold Speak.skips in Hs.
        rewrite !andb_true_iff, !Z.ltb_lt in Hs. lia.
      * rewrite (proj1 (connect_accept action llm_prompt uuid self w He Hs)).
        lia.
    + rewrite connect_disabled by assumption. exact Hin.
  - rewrite bind_run. simpl.
    destruct (status_request_frame r self w) as [b Hb]. rewrite Hb.
    exact Hin.
  - exact Hin.
Qed.

Lemma calls_counter_in_bounds cs : forall self w,
  counter_in_bounds self ->
  counter_in_bounds (fst (Speak.calls cs self w))
  /\ Speak.self_silence_rate (fst (Speak.calls cs self w))
     = Speak.self_silence_rate self.
Proof.
  induction cs as [|c cs IH]; intros self w Hin; simpl.
  - split; [exact Hin|reflexivity].
  - rewrite bind_run.
    destruct (IH (fst (Speak.call c self w)) (snd (Speak.call c self w))
                (call_counter_in_bounds c self w Hin)) as [H1 H2].
    split; [exact H1|]. rewrite H2. apply call_silence_rate.
Qed.

(** C6 fails on the code: a connector configured with [silence_rate] = -1
    starts with [silence_counter] = 0, above the rate. *)
Lemma silence_counter_bounds_counterexample :
  ~ counter_in_bounds (fst (new_connector (silence_config (-1)))).
Proof.
  unfold counter_in_bounds. vm_compute. intros [_ H]. apply H. reflexivity.
Qed.

(** C6, amended.  For every configured [silence_rate] that is not negative,
    every state the connector reaches from its construction through any
    sequence of [connect] calls, control requests and audio messages has
    0 <= [silence_counter] <= [silence_rate]. *)
Theorem silence_counter_bounds config zenoh uuid instance cs w w' :
  0 <= Speak.silence_rate config ->
  counter_in_bounds
    (fst (Speak.calls cs (fst (Speak.init config zenoh uuid instance w)) w'))
  /\ Speak.self_silence_rate
       (fst (Speak.calls cs (fst (Speak.init config zenoh uuid instance w)) w'))
     = Speak.silence_rate config.
Proof.
  intros Hrate.
  destruct (init_silence config zenoh uuid instance w) as (Hc & Hr & _).
  destruct (calls_counter_in_bounds cs
              (fst (Speak.init config zenoh uuid instance w)) w') as [H1 H2].
  - unfold counter_in_bounds. rewrite Hc, Hr. lia.
  - split; [exact H1|]. rewrite H2. exact Hr.
Qed.

Lemma silence_counter_bounds_witness :
  counter_in_bounds
    (fst (Speak.calls two_quiet_calls
            (fst (new_connector (silence_config 2)))
            (snd (new_connector (silence_config 2))))).
Proof.
  exact (proj1 (silence_counter_bounds (silence_config 2) Speak.Succeeds
                  "uuid-0" None two_quiet_calls world0
                  (snd (new_connector (silence_config 2)))
                  ltac:(discriminate))).
Defined.

(** ** Binary64 arithmetic *)

(** The facts below are about [SpecFloat], the specification the primitive
    operations on [float] are axiomatised by. *)

Lemma SFcompare_antisym x y :
  SFcompare y x
  = match SFcompare x y with Some c => Some (CompOpp c) | None => None end.
Proof.
  destruct x as [sx|sx| |sx mx ex], y as [sy|sy| |sy my ey]; simpl;
    try reflexivity;
    try (destruct sx; reflexivity); try (destruct sy; reflexivity);
    try (destruct sx, sy; reflexivity).
  change (PosDef.Pos.compare_cont Eq my mx) with (Pos.compare my mx).
  change (PosDef.Pos.compare_cont Eq mx my) with (Pos.compare mx my).
  rewrite (Z.compare_antisym ey ex), (Pos.compare_antisym my mx).
  destruct sx, sy, (ey ?= ex)%Z, (my ?= mx)%positive; reflexivity.
Qed.

(** [x <= y] excludes [y < x]. *)
Lemma leb_ltb_false x y :
  PrimFloat.leb x y = true -> PrimFloat.ltb y x = false.
Proof.
  rewrite FloatAxioms.leb_spec, FloatAxioms.ltb_spec. unfold SFleb, SFltb.
  rewrite (SFcompare_antisym (Prim2SF x) (Prim2SF y)).
  destruct (SFcompare (Prim2SF x) (Prim2SF y)) as [[| |]|]; simpl;
    congruence.
Qed.

Lemma SFltb_zero x :
  SFltb x (S754_zero false) = negb (not_negative x).
Proof. destruct x as [s|s| |s m e]; try destruct s; reflexivity. Qed.

Lemma binary_round_aux_not_negative mx ex lx :
  not_negative (binary_round_aux prec emax false mx ex lx) = true.
Proof.
  unfold binary_round_aux.
  destruct (shr_fexp prec emax mx ex lx) as [mrs e'].
  destruct (shr_fexp prec emax _ e' loc_Exact) as [mrs' e''].
  destruct (shr_m mrs'); try reflexivity.
  destruct (e'' <=? emax - prec)%Z; reflexivity.
Qed.

(** Rounding keeps the sign. *)
Lemma binary_normalize_not_negative m e :
  (0 <= m)%Z ->
  not_negative (binary_normalize prec emax m e false) = true.
Proof.
  intros Hm. destruct m as [|p|p]; simpl; [reflexivity| |lia].
  unfold binary_round. destruct (shl_align _ _ _) as [mz ez].
  apply binary_round_aux_not_negative.
Qed.

Lemma iter_xO m d : Zpos (Pos.iter xO m d) = (Zpos m * 2 ^ Zpos d)%Z.
Proof.
  induction d as [|d IH] using Pos.peano_ind.
  - simpl. lia.
  - rewrite Pos.iter_succ, Pos2Z.inj_succ, Z.pow_succ_r by lia.
    change (Zpos (Pos.iter xO m d)~0) with (2 * Zpos (Pos.iter xO m d))%Z.
    rewrite IH. lia.
Qed.

Lemma shl_align_fst mx ex ez :
  (ez <= ex)%Z ->
  Zpos (fst (shl_align mx ex ez)) = (Zpos mx * 2 ^ (ex - ez))%Z.
Proof.
  intros H. unfold shl_align.
  destruct (ez - ex)%Z as [|d|d] eqn:Hd; cbn [fst].
  - replace (ex - ez)%Z with 0%Z by lia. rewrite Z.pow_0_r. lia.
  - pose proof (Pos2Z.is_pos d). lia.
  - rewrite iter_xO. f_equal. f_equal.
    pose proof (Pos2Z.opp_pos d). lia.
Qed.

Lemma digits2_pos_bounds m :
  (2 ^ (Zpos (digits2_pos m) - 1) <= Zpos m < 2 ^ Zpos (digits2_pos m))%Z.
Proof.
  induction m as [m IH|m IH|]; simpl digits2_pos.
  - rewrite Pos2Z.inj_succ.
    replace (Z.succ (Zpos (digits2_pos m)) - 1)%Z with (Zpos (digits2_pos m))
      by lia.
    rewrite Z.pow_succ_r by lia.
    assert (2 ^ Zpos (digits2_pos m)
            = 2 * 2 ^ (Zpos (digits2_pos m) - 1))%Z
      by (rewrite <- Z.pow_succ_r by lia; f_equal; lia).
    change (Zpos m~1) with (2 * Zpos m + 1)%Z. lia.
  - rewrite Pos2Z.inj_succ.
    replace (Z.succ (Zpos (digits2_pos m)) - 1)%Z with (Zpos (digits2_pos m))
      by lia.
    rewrite Z.pow_succ_r by lia.
    assert (2 ^ Zpos (digits2_pos m)
            = 2 * 2 ^ (Zpos (digits2_pos m) - 1))%Z
      by (rewrite <- Z.pow_succ_r by lia; f_equal; lia).
    change (Zpos m~0) with (2 * Zpos m)%Z. lia.
  - cbv. split; [discriminate|reflexivity].
Qed.

(** What validity says of a finite binary64 number: the mantissa has 53
    bits at most, and 53 exactly above the least exponent. *)
Lemma valid_finite s m e :
  valid_binary (S754_finite s m e) = true ->
  (Zpos m < 2 ^ 53)%Z
  /\ (-1074 <= e)%Z
  /\ ((-1074 < e)%Z -> (2 ^ 52 <= Zpos m)%Z).
Proof.
  unfold valid_binary, bounded, canonical_mantissa, fexp, emin.
  change prec with 53%Z. change emax with 1024%Z.
  intros H. apply andb_true_iff in H. destruct H as [H _].
  apply Z.eqb_eq in H.
  pose proof (digits2_pos_bounds m) as [Hlo Hhi].
  assert (Hd : (Zpos (digits2_pos m) <= 53)%Z) by lia.
  split; [|split].
  - apply Z.lt_le_trans with (1 := Hhi).
    apply Z.pow_le_mono_r; lia.
  - lia.
  - intros He. assert (Zpos (digits2_pos m) = 53)%Z by lia.
    replace 52%Z with (Zpos (digits2_pos m) - 1)%Z by lia. exact Hlo.
Qed.

Lemma pow2_ge_2 d : (1 <= d)%Z -> (2 <= 2 ^ d)%Z.
Proof.
  intros H. change 2%Z with (2 ^ 1)%Z at 1. apply Z.pow_le_mono_r; lia.
Qed.

(** Of two positive numbers brought to the same exponent, the smaller one
    has the smaller mantissa. *)
Lemma aligned_difference mx ex my ey :
  valid_binary (S754_finite false mx ex) = true ->
  valid_binary (S754_finite false my ey) = true ->
  match (ey ?= ex)%Z with
  | Lt => True
  | Eq => (my ?= mx)%positive <> Gt
  | Gt => False
  end ->
  (Zpos (fst (shl_align my ey (Z.min ex ey)))
   <= Zpos (fst (shl_align mx ex (Z.min ex ey))))%Z.
Proof.
  intros Vx Vy H.
  rewrite !shl_align_fst by lia.
  destruct (valid_finite _ _ _ Vx) as (Hx & Hex & Hnx).
  destruct (valid_finite _ _ _ Vy) as (Hy & Hey & Hny).
  destruct (ey ?= ex)%Z eqn:Hc.
  - apply Z.compare_eq in Hc. subst ey.
    rewrite Z.min_id, Z.sub_diag, Z.pow_0_r, !Z.mul_1_r.
    apply Pos2Z.pos_le_pos. exact H.
  - assert (Hlt : (ey < ex)%Z) by exact Hc.
    rewrite Z.min_r by lia. rewrite Z.sub_diag, Z.pow_0_r, Z.mul_1_r.
    pose proof (pow2_ge_2 (ex - ey) ltac:(lia)) as Hp.
    pose proof (Hnx ltac:(lia)) as Hm.
    apply Z.le_trans with (2 ^ 52 * 2)%Z; [lia|].
    apply Z.mul_le_mono_nonneg; lia.
  - contradiction.
Qed.

Ltac signed_lia :=
  change IntDef.Z.min with Z.min in *;
  repeat match goal with
  | |- context [Zneg ?p] =>
      lazymatch p with
      | fst _ => change (Zneg p) with (- Zpos p)%Z
      end
  end; lia.

(** A number minus one that is not above it is not negative, however the
    difference is rounded. *)
Lemma SFsub_not_negative x y :
  valid_binary x = true -> valid_binary y = true ->
  SFleb y x = true ->
  not_negative (SF64sub x y) = true.
Proof.
  intros Vx Vy Hle. unfold SFleb in Hle.
  destruct x as [sx|sx| |sx mx ex], y as [sy|sy| |sy my ey];
    simpl in Hle; try discriminate;
    try (destruct sx, sy; simpl in *; try discriminate; reflexivity);
    try (destruct sx; simpl in *; try discriminate; reflexivity);
    try (destruct sy; simpl in *; try discriminate; reflexivity).
  unfold SF64sub, SFsub.
  apply binary_normalize_not_negative.
  change (PosDef.Pos.compare_cont Eq my mx) with (Pos.compare my mx) in Hle.
  destruct sx, sy; simpl cond_Zopp; try discriminate.
  - assert (H : (Zpos (fst (shl_align mx ex (Z.min ey ex)))
                 <= Zpos (fst (shl_align my ey (Z.min ey ex))))%Z).
    { apply aligned_difference; try assumption.
      rewrite (Z.compare_antisym ey ex), (Pos.compare_antisym my mx).
      destruct (ey ?= ex)%Z; simpl in *; try discriminate; try exact I.
      destruct (my ?= mx)%positive; simpl in *; congruence. }
    rewrite Z.min_comm in H. signed_lia.
  - assert (H : (Zpos (fst (shl_align my ey (Z.min ex ey)))
                 <= Zpos (fst (shl_align mx ex (Z.min ex ey))))%Z).
    { apply aligned_difference; try assumption.
      destruct (ey ?= ex)%Z; simpl in *; try discriminate; try exact I.
      destruct (my ?= mx)%positive; simpl in *; congruence. }
    signed_lia.
Qed.

(** In binary64, if [b <= a] then [a - b < 0.0] is false. *)
Lemma sub_not_below_zero a b :
  PrimFloat.leb b a = true ->
  PrimFloat.ltb (PrimFloat.sub a b) 0%float = false.
Proof.
  rewrite FloatAxioms.leb_spec, FloatAxioms.ltb_spec, FloatAxioms.sub_spec.
  intros Hle.
  change (Prim2SF 0%float) with (S754_zero false).
  rewrite SFltb_zero.
  rewrite SFsub_not_negative; [reflexivity| | |exact Hle];
    apply Prim2SF_valid.
Qed.

(** ** The greeting connector *)

Lemma add_pending_message_trace message self w :
  exists added,
    trace (snd (Provider.add_pending_message message self w))
    = trace w ++ added
    /\ state_updates added = 0%nat
    /\ notifications added = 0%nat.
Proof.
  unfold Provider.add_pending_message, Provider.create_pending_message.
  destruct (Provider.running self), message; run; rewrite <- ?app_assoc;
    eexists; (split; [reflexivity|]); split; reflexivity.
Qed.

(** The durations [connect] records are binary64 results, not exact
    products: six words give 3.5999999999999996 seconds and 205 words
    122.99999999999999. *)
#[warnings="-inexact-float"]
Example estimate_six_words :
  Greeting.estimate (Greeting.response six_words)
  = 3.5999999999999996%float.
Proof. vm_compute. reflexivity. Qed.

#[warnings="-inexact-float"]
Example estimate_205_words :
  Greeting.estimate (words 205) = 122.99999999999999%float.
Proof. vm_compute. reflexivity. Qed.

(** The elapsed time is the rounded difference: from 0.1 to 0.7 it is
    0.6, not less. *)
#[warnings="-inexact-float"]
Example elapsed_is_rounded :
  PrimFloat.ltb (PrimFloat.sub 0.7 0.1) 0.6 = false.
Proof. vm_compute. reflexivity. Qed.

Section GreetingFacts.

Variable value : Greeting.ConversationState -> Greeting.Constant.
Variable Machine : Type.
Variable process_conversation :
  Greeting.Input -> Machine -> Machine * Greeting.Dictionary.
Variable update_state_without_llm : Machine -> Machine * Greeting.Dictionary.

Local Abbreviation connect := (Greeting.connect Machine process_conversation).
Local Abbreviation tick :=
  (Greeting.tick value Machine update_state_without_llm).
Local Abbreviation machine := (Greeting.greeting_state_provider Machine).
Local Abbreviation triggered := (Greeting.tts_triggered_time Machine).
Local Abbreviation duration := (Greeting.tts_duration Machine).

(** A tick made while the estimated speech lasts does nothing but log. *)
Lemma tick_early now self w :
  PrimFloat.ltb (PrimFloat.sub now (triggered self)) (duration self) = true ->
  tick now self w
  = ((self, Greeting.Returned),
     mkWorld (next_id w)
       (trace w ++ [Log log_tick; Sleep 10; Log log_tick_skipped])).
Proof.
  intros Hlt. unfold Greeting.tick. run. rewrite Hlt. tidy. reflexivity.
Qed.

(** Any other tick asks the state machine once and keeps its state,
    notifies the context when the state it reports is the value of
    [FINISHED], and ends as the formatting of the last log record does. *)
Lemma tick_late now self w :
  PrimFloat.ltb (PrimFloat.sub now (triggered self)) (duration self)
  = false ->
  tick now self w
  = ((Greeting.mk Machine (fst (update_state_without_llm (machine self)))
        (Greeting.tts Machine self) (triggered self) (duration self),
      Greeting.format_state_update
        (snd (update_state_without_llm (machine self)))),
     mkWorld (next_id w)
       (trace w ++ [Log log_tick; Sleep 10; UpdateStateWithoutLLM]
        ++ (if Greeting.finished_value value
                 (snd (update_state_without_llm (machine self)))
            then [Log log_finished_in_tick; UpdateContextFinished] else [])
        ++ (match Greeting.format_state_update
                    (snd (update_state_without_llm (machine self))) with
            | Greeting.Returned => [Log log_state_update]
            | Greeting.Raised _ => []
            end))).
Proof.
  intros Hge. unfold Greeting.tick, Greeting.finished_value. run.
  rewrite Hge.
  destruct (update_state_without_llm (machine self)) as [m d]. simpl.
  destruct (Greeting.py_eqb (Greeting.get "current_state" d)
              (Greeting.PyConst (value Greeting.FINISHED)));
    destruct (Greeting.format_state_update d);
    unfold Greeting.notify_finished; run; tidy; reflexivity.
Qed.

(** The calls of [update_state_without_llm] and the notifications of a
    tick that is not skipped. *)
Lemma tick_late_counts now self w :
  PrimFloat.ltb (PrimFloat.sub now (triggered self)) (duration self)
  = false ->
  state_updates (trace (snd (tick now self w))) = S (state_updates (trace w))
  /\ notifications (trace (snd (tick now self w)))
     = (notifications (trace w)
        + (if Greeting.finished_value value
                (snd (update_state_without_llm (machine self)))
           then 1 else 0))%nat.
Proof.
  intros Hge. rewrite tick_late by exact Hge. simpl.
  rewrite !state_updates_app, !notifications_app. simpl.
  destruct (Greeting.finished_value value
              (snd (update_state_without_llm (machine self))));
    destruct (Greeting.format_state_update
                (snd (update_state_without_llm (machine self))));
    simpl; split; lia.
Qed.

(** What [connect] leaves behind. *)
Lemma connect_run inp now self w :
  exists added,
    connect inp now self w
    = (Greeting.mk Machine
         (fst (process_conversation inp (machine self)))
         (fst (Provider.add_pending_message
                 (Provider.Str (Greeting.response inp))
                 (Greeting.tts Machine self)
                 (mkWorld (next_id w)
                    (trace w ++
                     [Log log_conversation_state;
                      Log (log_greeting_response (Greeting.response inp));
                      Log log_confidence; Log log_speech_clarity]))))
         now (Greeting.estimate (Greeting.response inp)),
       mkWorld (next_id w)
         (trace w ++ added
          ++ (if Greeting.finished_member
                   (snd (process_conversation inp (machine self)))
              then [Log log_finished; UpdateContextFinished] else [])))
    /\ state_updates added = 0%nat
    /\ notifications added = 0%nat.
Proof.
  unfold Greeting.connect, Greeting.finished_member,
    Provider.add_pending_message, Provider.create_pending_message.
  destruct self as [m0 [key [|] stream voice model format interrupt] t0 d0];
    simpl;
    [ exists [Log log_conversation_state;
              Log (log_greeting_response (Greeting.response inp));
              Log log_confidence; Log log_speech_clarity;
              Log (log_audio_stream (Greeting.response inp));
              Log (log_adding
                     (mkPending (Greeting.response inp) voice model format));
              StreamAddRequest (Stream.ident stream)
                (mkPending (Greeting.response inp) voice model format);
              ProcessConversation; Log log_conversation_response]
    | exists [Log log_conversation_state;
              Log (log_greeting_response (Greeting.response inp));
              Log log_confidence; Log log_speech_clarity;
              Log log_not_running_add;
              ProcessConversation; Log log_conversation_response] ];
    destruct (process_conversation inp m0) as [m d]; simpl;
    destruct (Greeting.py_eqb (Greeting.get "current_state" d)
                (Greeting.PyState Greeting.FINISHED));
    unfold Greeting.notify_finished; run; tidy;
    (split; [reflexivity|]); split; reflexivity.
Qed.

(** C4.  Times and durations are binary64 numbers, and the elapsed time is
    the difference [now - tts_triggered_time] as the code computes it.  A
    tick made when the elapsed time is less than the estimated duration
    does not call [update_state_without_llm], returns normally and leaves
    the connector, its state machine included, as it was; a tick made when
    the elapsed time is greater than or equal to the estimated duration
    calls it exactly once and keeps the state it returns; so does every
    tick for which the comparison of the code, elapsed < duration, is
    false.  The duration [connect] records is (word_count / 100.0) * 60.0
    for the words of the response text, and the trigger time it records is
    the time of the call. *)
Theorem tick_gating inp now self w :
  (PrimFloat.ltb (PrimFloat.sub now (triggered self)) (duration self) = true ->
     state_updates (trace (snd (tick now self w))) = state_updates (trace w)
     /\ fst (tick now self w) = (self, Greeting.Returned))
  /\ (PrimFloat.leb (duration self) (PrimFloat.sub now (triggered self))
      = true ->
     state_updates (trace (snd (tick now self w)))
     = S (state_updates (trace w))
     /\ machine (fst (fst (tick now self w)))
        = fst (update_state_without_llm (machine self)))
  /\ (PrimFloat.ltb (PrimFloat.sub now (triggered self)) (duration self)
      = false ->
     state_updates (trace (snd (tick now self w)))
     = S (state_updates (trace w)))
  /\ duration (fst (connect inp now self w))
     = PrimFloat.mul
         (PrimFloat.div
            (Greeting.float_of_int
               (Z.of_nat (List.length (Py.split (Greeting.response inp)))))
            100%float)
         60%float
  /\ triggered (fst (connect inp now self w)) = now.
Proof.
  split; [|split; [|split; [|split]]].
  - intros Hlt. rewrite tick_early by exact Hlt. simpl.
    rewrite state_updates_app. simpl. split; [lia|reflexivity].
  - intros Hle. apply leb_ltb_false in Hle.
    split; [exact (proj1 (tick_late_counts now self w Hle))|].
    rewrite tick_late by exact Hle. reflexivity.
  - intros Hge. exact (proj1 (tick_late_counts now self w Hge)).
  - destruct (connect_run inp now self w) as (added & Heq & _).
    rewrite Heq. reflexivity.
  - destruct (connect_run inp now self w) as (added & Heq & _).
    rewrite Heq. reflexivity.
Qed.

(** C9.  [connect] notifies the shared context exactly when the state in
    the result of [process_conversation] equals the member [FINISHED];
    a tick that is not skipped notifies it exactly when the state in the
    result of [update_state_without_llm] equals the value of [FINISHED].
    A result whose state is the member itself passes the first check and
    fails the second: [connect] notifies on it, [tick] does not. *)
Theorem finished_checks inp now self w :
  notifications (trace (snd (connect inp now self w)))
  = (notifications (trace w)
     + (if Greeting.finished_member
             (snd (process_conversation inp (machine self)))
        then 1 else 0))%nat
  /\ (PrimFloat.ltb (PrimFloat.sub now (triggered self)) (duration self)
      = false ->
      notifications (trace (snd (tick now self w)))
      = (notifications (trace w)
         + (if Greeting.finished_value value
                 (snd (update_state_without_llm (machine self)))
            then 1 else 0))%nat)
  /\ (forall d,
        Greeting.get "current_state" d = Greeting.PyState Greeting.FINISHED ->
        Greeting.finished_member d = true
        /\ Greeting.finished_value value d = false)
  /\ (Greeting.get "current_state"
        (snd (process_conversation inp (machine self)))
      = Greeting.PyState Greeting.FINISHED ->
      notifications (trace (snd (connect inp now self w)))
      = S (notifications (trace w)))
  /\ (PrimFloat.ltb (PrimFloat.sub now (triggered self)) (duration self)
      = false ->
      Greeting.get "current_state"
        (snd (update_state_without_llm (machine self)))
      = Greeting.PyState Greeting.FINISHED ->
      notifications (trace (snd (tick now self w)))
      = notifications (trace w)).
Proof.
  assert (Hconnect :
    notifications (trace (snd (connect inp now self w)))
    = (notifications (trace w)
       + (if Greeting.finished_member
               (snd (process_conversation inp (machine self)))
          then 1 else 0))%nat).
  { destruct (connect_run inp now self w) as (added & Heq & _ & Hn).
    rewrite Heq. simpl. rewrite !notifications_app, Hn.
    destruct (Greeting.finished_member
                (snd (process_conversation inp (machine self))));
      simpl; lia. }
  assert (Htick :
    PrimFloat.ltb (PrimFloat.sub now (triggered self)) (duration self)
    = false ->
    notifications (trace (snd (tick now self w)))
    = (notifications (trace w)
       + (if Greeting.finished_value value
               (snd (update_state_without_llm (machine self)))
          then 1 else 0))%nat).
  { intros Hge. exact (proj2 (tick_late_counts now self w Hge)). }
  assert (Hmember : forall d,
    Greeting.get "current_state" d = Greeting.PyState Greeting.FINISHED ->
    Greeting.finished_member d = true
    /\ Greeting.finished_value value d = false).
  { intros d Hd. unfold Greeting.finished_member, Greeting.finished_value.
    rewrite Hd. split; reflexivity. }
  split; [exact Hconnect|]. split; [exact Htick|]. split; [exact Hmember|].
  split.
  - intros Hd. rewrite Hconnect, (proj1 (Hmember _ Hd)). lia.
  - intros Hge Hd. rewrite (Htick Hge), (proj2 (Hmember _ Hd)). lia.
Qed.

End GreetingFacts.

Lemma tick_gating_witness :
  fst (Greeting.tick lower_value unit reports_member 103 (fst spoke_at_100)
         (snd spoke_at_100))
  = (fst spoke_at_100, Greeting.Returned)
  /\ state_updates
       (trace (snd (Greeting.tick lower_value unit reports_member 104
                      (fst spoke_at_100) (snd spoke_at_100))))
     = S (state_updates (trace (snd spoke_at_100))).
Proof.
  split.
  - refine (proj2 (proj1 (tick_gating lower_value unit
                            (fun _ => reports_member) reports_member
                            six_words 103 (fst spoke_at_100)
                            (snd spoke_at_100)) _)).
    vm_compute. reflexivity.
  - refine (proj1 (proj1 (proj2 (tick_gating lower_value unit
                                   (fun _ => reports_member) reports_member
                                   six_words 104 (fst spoke_at_100)
                                   (snd spoke_at_100))) _)).
    vm_compute. reflexivity.
Defined.

Lemma finished_checks_witness :
  notifications
    (trace (snd (Greeting.connect unit (fun _ => reports_member) six_words
                   200 (fst spoke_at_100) (snd spoke_at_100))))
  = S (notifications (trace (snd spoke_at_100)))
  /\ notifications
       (trace (snd (Greeting.tick lower_value unit reports_member 104
                      (fst spoke_at_100) (snd spoke_at_100))))
     = notifications (trace (snd spoke_at_100)).
Proof.
  pose proof (finished_checks lower_value unit (fun _ => reports_member)
                reports_member six_words 104 (fst spoke_at_100)
                (snd spoke_at_100)) as (_ & _ & _ & _ & Htick).
  pose proof (finished_checks lower_value unit (fun _ => reports_member)
                reports_member six_words 200 (fst spoke_at_100)
                (snd spoke_at_100)) as (_ & _ & _ & Hconnect & _).
  split.
  - apply Hconnect. reflexivity.
  - apply Htick; [vm_compute; reflexivity | reflexivity].
Defined.

(** A tick whose state machine reports no confidence scores updates the
    state machine and then raises, at the last log record. *)
Example tick_raises_at_the_log :
  fst (Greeting.tick lower_value unit reports_no_confidence 104
         (fst spoke_at_100) world0)
  = (fst spoke_at_100, Greeting.Raised Greeting.AttributeError)
  /\ trace (snd (Greeting.tick lower_value unit reports_no_confidence 104
                   (fst spoke_at_100) world0))
     = [Log log_tick; Sleep 10; UpdateStateWithoutLLM].
Proof. vm_compute. split; reflexivity. Qed.

(** ** The scenarios of the test suite, replayed on the model *)

(** [test_configure_no_changes]: the stream stays the object it was. *)
Example configure_no_changes :
  Provider.configure Provider.defaults (fst started_provider)
    (snd started_provider)
  = started_provider.
Proof. reflexivity. Qed.

(** [test_configure_with_changes_while_stopped]. *)
Example configure_with_changes_while_stopped :
  Provider.active
    (fst (Provider.configure new_voice_args (fst fresh_provider)
            (snd fresh_provider)))
  = new_voice_args
  /\ trace (snd (Provider.configure new_voice_args (fst fresh_provider)
                   (snd fresh_provider)))
     = [StreamNew 0; StreamNew 1; StreamStart 1].
Proof. split; reflexivity. Qed.

(** [test_add_pending_message_as_string]. *)
Example add_pending_message_as_string :
  Stream._pending_requests
    (Provider._audio_stream
       (fst (Provider.add_pending_message (Provider.Str "Test message")
               (fst started_provider) (snd started_provider))))
  = [mkPending "Test message" "af_bella" "kokoro" "pcm"].
Proof. reflexivity. Qed.

(** [test_connect_silence_rate_skip]: with [silence_rate] = 2 the counter
    reads 1, 2 and 0 after three calls made on text input. *)
Example connect_silence_rate_skip :
  map (fun n =>
         Speak.silence_counter
           (fst (Speak.calls
                   (repeat (Speak.Connect "Hello, world!" text_prompt "uuid")
                      n)
                   (fst (new_connector (silence_config 2)))
                   (snd (new_connector (silence_config 2))))))
      [1; 2; 3]%nat
  = [1; 2; 0].
Proof. reflexivity. Qed.

(** [test_connect_tts_enabled]: a call made on voice input is accepted at
    once, recorded in the conversation and published. *)
Example connect_tts_enabled :
  trace (snd (Speak.connect "Hello, world!" voice_prompt "uuid-1"
                (fst (new_connector (silence_config 2))) world0))
  = [Log (log_audio_stream "Hello, world!");
     StoreRobotMessage "Hello, world!";
     AudioPut
       (mkAudioStatus (mkHeader "uuid-1") MIC_UNKNOWN SPEAKER_ACTIVE
          (JsonDumps (mkPending "Hello, world!" "af_bella" "kokoro" "pcm")))].
Proof. reflexivity. Qed.

(** [test_zenoh_tts_status_request_read]. *)
Example status_request_read :
  responses
    (trace (snd (Speak._zenoh_tts_status_request (sample_request 2)
                   (fst (new_connector Speak.default_config)) world0)))
  = [mkResponse (mkHeader "test_frame") "test_request_id" 1 "TTS Enabled"].
Proof. reflexivity. Qed.

(** ** Further properties of the provider *)

Lemma stored_app a b : stored (a ++ b) = stored a ++ stored b.
Proof.
  induction a as [|e a IH]; simpl; [reflexivity|].
  destruct e; simpl; rewrite IH; reflexivity.
Qed.

Lemma enqueued_app a b : enqueued (a ++ b) = enqueued a ++ enqueued b.
Proof.
  induction a as [|e a IH]; simpl; [reflexivity|].
  destruct e; simpl; rewrite IH; reflexivity.
Qed.

Lemma audio_puts_app a b : audio_puts (a ++ b) = audio_puts a ++ audio_puts b.
Proof.
  induction a as [|e a IH]; simpl; [reflexivity|].
  destruct e; simpl; rewrite IH; reflexivity.
Qed.

Lemma stream_starts_app a b :
  stream_starts (a ++ b) = stream_starts a ++ stream_starts b.
Proof.
  induction a as [|e a IH]; simpl; [reflexivity|].
  destruct e; simpl; rewrite IH; reflexivity.
Qed.

(** X1.  [start] is idempotent: whatever the provider's state, it runs after
    [start], and a second [start] only logs the warning; the stream is not
    started a second time. *)
Theorem start_idempotent self w :
  Provider.running (fst (Provider.start self w)) = true
  /\ Provider.start (fst (Provider.start self w)) (snd (Provider.start self w))
     = (fst (Provider.start self w),
        mkWorld (next_id (snd (Provider.start self w)))
          (trace (snd (Provider.start self w)) ++ [Log log_already_running])).
Proof.
  unfold Provider.start. destruct (Provider.running self) eqn:Hrun; run.
  - rewrite Hrun. split; reflexivity.
  - split; reflexivity.
Qed.

(** X2.  [stop] is idempotent: the provider does not run after [stop], and a
    second [stop] only logs the warning; the stream is not stopped again. *)
Theorem stop_idempotent self w :
  Provider.running (fst (Provider.stop self w)) = false
  /\ Provider.stop (fst (Provider.stop self w)) (snd (Provider.stop self w))
     = (fst (Provider.stop self w),
        mkWorld (next_id (snd (Provider.stop self w)))
          (trace (snd (Provider.stop self w)) ++ [Log log_not_running_stop])).
Proof.
  unfold Provider.stop. destruct (Provider.running self) eqn:Hrun; run.
  - split; reflexivity.
  - rewrite Hrun. split; reflexivity.
Qed.

(** X3.  On a running provider, adding a text is the same computation as
    creating the pending message and adding that dict: same provider, same
    records, and the one request the stream receives carries the text with
    the provider's voice, model and format. *)
Theorem add_text_is_create_then_add txt self w :
  Provider.running self = true ->
  Provider.add_pending_message (Provider.Str txt) self w
  = (m <- Provider.create_pending_message txt self ;;
     Provider.add_pending_message (Provider.Dict m) self) w
  /\ enqueued
       (trace (snd (Provider.add_pending_message (Provider.Str txt) self w)))
     = enqueued (trace w) ++ [pending_of txt self].
Proof.
  intros Hrun.
  unfold Provider.add_pending_message, Provider.create_pending_message.
  rewrite Hrun. run. rewrite Hrun. run. split; [reflexivity|].
  rewrite !enqueued_app. simpl. rewrite !app_nil_r. reflexivity.
Qed.

Lemma add_text_is_create_then_add_witness :
  enqueued
    (trace (snd (Provider.add_pending_message (Provider.Str "Hello")
                   (fst started_provider) (snd started_provider))))
  = [mkPending "Hello" "af_bella" "kokoro" "pcm"].
Proof.
  exact (proj2 (add_text_is_create_then_add "Hello" (fst started_provider)
                  (snd started_provider) eq_refl)).
Defined.

Lemma restart_needed_active self :
  Provider.restart_needed (Provider.active self) self = false.
Proof. apply restart_needed_false_iff. simpl. tauto. Qed.

(** X4.  [configure] is idempotent: a second call with the same arguments,
    made at any later time, returns at once; it builds and starts no
    stream. *)
Theorem configure_idempotent a self w w' :
  Provider.configure a (fst (Provider.configure a self w)) w'
  = (fst (Provider.configure a self w), w').
Proof.
  apply configure_same.
  destruct (Provider.restart_needed a self) eqn:Hneed.
  - pose proof (configure_restart_active a self w Hneed) as Hact.
    rewrite <- Hact at 1. apply restart_needed_active.
  - rewrite configure_same by exact Hneed. exact Hneed.
Qed.

(** ** Further properties of the speak connector *)

Lemma restart_needed_start a p w :
  Provider.restart_needed a (fst (Provider.start p w))
  = Provider.restart_needed a p.
Proof.
  unfold Provider.start. destruct (Provider.running p); reflexivity.
Qed.

Lemma start_running p w : Provider.running (fst (Provider.start p w)) = true.
Proof.
  unfold Provider.start. destruct (Provider.running p) eqn:H; run;
    [exact H|reflexivity].
Qed.

Lemma restart_needed_init a w :
  Provider.restart_needed a (fst (Provider.init a w)) = false.
Proof. apply restart_needed_false_iff. simpl. tauto. Qed.

(** What the provider of a new connector is: the one [configure] returns
    for the started singleton. *)
Lemma init_tts config zenoh uuid instance w :
  exists w1 w2 w3,
    Speak.tts (fst (Speak.init config zenoh uuid instance w))
    = fst (Provider.configure (Speak.provider_args config)
             (fst (Provider.start
                     (fst (Provider.singleton instance
                             (Speak.provider_args config) w1)) w2)) w3).
Proof.
  unfold Speak.init. rewrite !bind_run. simpl. eauto.
Qed.

(** X5.  The provider a new connector holds runs exactly when [configure]
    had nothing to restart: always when the connector built the provider
    itself, and, when the provider existed already, only if its url, key,
    voice, model, format and interrupt flag are those of the connector's
    configuration.  Otherwise the connector is left with a stopped
    provider. *)
Theorem connector_provider_running config zenoh uuid instance w :
  Provider.running (Speak.tts (fst (Speak.init config zenoh uuid instance w)))
  = match instance with
    | None => true
    | Some p => negb (Provider.restart_needed (Speak.provider_args config) p)
    end.
Proof.
  destruct (init_tts config zenoh uuid instance w) as (w1 & w2 & w3 & ->).
  destruct instance as [p|]; unfold Provider.singleton, ret; cbn [fst].
  - destruct (Provider.restart_needed (Speak.provider_args config) p) eqn:Hn.
    + rewrite configure_restart_running;
        [reflexivity | rewrite restart_needed_start; exact Hn
        | apply start_running].
    + rewrite configure_same by (rewrite restart_needed_start; exact Hn).
      apply start_running.
  - rewrite configure_same
      by (rewrite restart_needed_start; apply restart_needed_init).
    apply start_running.
Qed.

(** The effects of adding a dict, by kind. *)
Lemma add_dict_effects m p w :
  enqueued (trace (snd (Provider.add_pending_message (Provider.Dict m) p w)))
  = enqueued (trace w) ++ (if Provider.running p then [m] else [])
  /\ audio_puts
       (trace (snd (Provider.add_pending_message (Provider.Dict m) p w)))
     = audio_puts (trace w)
  /\ stored (trace (snd (Provider.add_pending_message (Provider.Dict m) p w)))
     = stored (trace w).
Proof.
  unfold Provider.add_pending_message.
  destruct (Provider.running p); run;
    rewrite ?enqueued_app, ?audio_puts_app, ?stored_app; simpl;
    rewrite ?app_nil_r; repeat split; reflexivity.
Qed.

(** An accepted call, in full. *)
Lemma connect_accept_run action llm_prompt uuid self w :
  Speak.tts_enabled self = true ->
  Speak.skips llm_prompt self = false ->
  let created :=
    mkWorld (next_id w)
      (trace w ++ [Log (log_audio_stream action)]
       ++ (if Speak.is_voice llm_prompt
           then [StoreRobotMessage action] else [])) in
  let state :=
    mkAudioStatus (mkHeader uuid) (status_mic (Speak.audio_status self))
      SPEAKER_ACTIVE (JsonDumps (pending_of action (Speak.tts self))) in
  Speak.connect action llm_prompt uuid self w
  = match Speak.audio_pub self with
    | Some _ =>
        (Speak.set_silence_counter 0 self,
         mkWorld (next_id w) (trace created ++ [AudioPut state]))
    | None =>
        (Speak.set_tts
           (fst (Provider.add_pending_message
                   (Provider.Dict (pending_of action (Speak.tts self)))
                   (Speak.tts self) created))
           (Speak.set_silence_counter 0 self),
         snd (Provider.add_pending_message
                (Provider.Dict (pending_of action (Speak.tts self)))
                (Speak.tts self) created))
    end.
Proof.
  intros He Hs. unfold Speak.connect. rewrite He, Hs. simpl.
  unfold Provider.create_pending_message, pending_of.
  destruct (Speak.is_voice llm_prompt), (Speak.audio_pub self); run;
    rewrite <- ?app_assoc; simpl;
    try reflexivity;
    destruct (Provider.add_pending_message _ _ _); reflexivity.
Qed.

(** X6.  An accepted call has exactly one sink.  With an audio publisher it
    puts one status (speaker active, the microphone status last received,
    the pending message as the sentence) and leaves the provider alone;
    without one it puts nothing and hands the pending message to the
    provider, which enqueues it if it runs and drops it otherwise. *)
Theorem connect_one_sink action llm_prompt uuid self w :
  Speak.tts_enabled self = true ->
  Speak.skips llm_prompt self = false ->
  audio_puts (trace (snd (Speak.connect action llm_prompt uuid self w)))
  = audio_puts (trace w)
    ++ match Speak.audio_pub self with
       | Some _ =>
           [mkAudioStatus (mkHeader uuid)
              (status_mic (Speak.audio_status self)) SPEAKER_ACTIVE
              (JsonDumps (pending_of action (Speak.tts self)))]
       | None => []
       end
  /\ enqueued (trace (snd (Speak.connect action llm_prompt uuid self w)))
     = enqueued (trace w)
       ++ match Speak.audio_pub self with
          | Some _ => []
          | None =>
              if Provider.running (Speak.tts self)
              then [pending_of action (Speak.tts self)] else []
          end
  /\ (Speak.audio_pub self <> None ->
      Speak.tts (fst (Speak.connect action llm_prompt uuid self w))
      = Speak.tts self).
Proof.
  intros He Hs. rewrite (connect_accept_run action llm_prompt uuid self w He Hs).
  destruct (Speak.audio_pub self) as [pub|]; simpl.
  - rewrite !audio_puts_app, !enqueued_app.
    destruct (Speak.is_voice llm_prompt); simpl; rewrite ?app_nil_r;
      repeat split; reflexivity.
  - match goal with
    | |- context [Provider.add_pending_message ?m ?p ?w0] =>
        destruct (add_dict_effects (pending_of action (Speak.tts self)) p w0)
          as (Henq & Hput & _)
    end.
    rewrite Henq, Hput. simpl.
    rewrite !audio_puts_app, !enqueued_app.
    destruct (Speak.is_voice llm_prompt); simpl; rewrite ?app_nil_r;
      repeat split; try reflexivity; intros H; contradiction.
Qed.

Lemma connect_one_sink_witness :
  enqueued
    (trace (snd (Speak.connect "Hello, world!" voice_prompt "uuid-1"
                   (fst (new_connector (silence_config 2)))
                   (snd (new_connector (silence_config 2))))))
  = [].
Proof.
  exact (proj1 (proj2 (connect_one_sink "Hello, world!" voice_prompt "uuid-1"
                         (fst (new_connector (silence_config 2)))
                         (snd (new_connector (silence_config 2)))
                         eq_refl eq_refl))).
Defined.

Lemma not_voice_is_voice llm_prompt :
  Speak.is_voice llm_prompt = true -> Speak.not_voice llm_prompt = false.
Proof.
  destruct llm_prompt as [p|]; simpl; [|discriminate].
  unfold Py.str_not_in. intros ->. reflexivity.
Qed.

Lemma is_voice_skips llm_prompt self :
  Speak.is_voice llm_prompt = true -> Speak.skips llm_prompt self = false.
Proof.
  intros H. unfold Speak.skips. rewrite (not_voice_is_voice _ H).
  apply andb_false_r.
Qed.

Lemma skips_not_voice llm_prompt self :
  Speak.skips llm_prompt self = true -> Speak.is_voice llm_prompt = false.
Proof.
  intros H. destruct (Speak.is_voice llm_prompt) eqn:Hv; [|reflexivity].
  rewrite (is_voice_skips _ self Hv) in H. discriminate.
Qed.

(** X7.  The conversation history receives exactly the actions of the calls
    made on voice input while speech is enabled: such a call stores its
    action once (it is never skipped), and no other call stores anything. *)
Theorem history_records_voice_calls action llm_prompt uuid self w :
  stored (trace (snd (Speak.connect action llm_prompt uuid self w)))
  = stored (trace w)
    ++ (if Speak.tts_enabled self && Speak.is_voice llm_prompt
        then [action] else []).
Proof.
  destruct (Speak.tts_enabled self) eqn:He; simpl.
  - destruct (Speak.skips llm_prompt self) eqn:Hs.
    + rewrite connect_skip by assumption. simpl.
      rewrite (skips_not_voice _ _ Hs), stored_app. reflexivity.
    + rewrite (connect_accept_run action llm_prompt uuid self w He Hs).
      destruct (Speak.audio_pub self) as [pub|]; simpl.
      * rewrite !stored_app.
        destruct (Speak.is_voice llm_prompt); simpl; rewrite ?app_nil_r;
          reflexivity.
      * match goal with
        | |- context [Provider.add_pending_message ?m ?p ?w0] =>
            destruct (add_dict_effects (pending_of action (Speak.tts self))
                        p w0) as (_ & _ & Hst)
        end.
        rewrite Hst. simpl. rewrite !stored_app.
        destruct (Speak.is_voice llm_prompt); simpl; rewrite ?app_nil_r;
          reflexivity.
  - rewrite connect_disabled by assumption. simpl.
    rewrite stored_app. reflexivity.
Qed.

(** X8.  While speech is disabled, [connect] calls do nothing but log: any
    sequence of them leaves the connector as it is, the silence counter
    included, and each adds the one "disabled" record. *)
Theorem calls_while_disabled cs : forall self w,
  Speak.tts_enabled self = false ->
  Forall (fun c => is_connect c = true) cs ->
  Speak.calls cs self w
  = (self,
     mkWorld (next_id w)
       (trace w ++ repeat (Log log_tts_disabled) (List.length cs))).
Proof.
  induction cs as [|c cs IH]; intros self w He Hc.
  - simpl. rewrite app_nil_r. destruct w; reflexivity.
  - inversion Hc as [|? ? Hc1 Hrest]; subst.
    destruct c as [action llm_prompt uuid| |]; try discriminate.
    cbn [Speak.calls Speak.call]. unfold bind at 1.
    rewrite connect_disabled by exact He.
    rewrite IH by assumption. simpl.
    rewrite <- app_assoc. reflexivity.
Qed.

Lemma calls_while_disabled_witness :
  fst (Speak.calls two_quiet_calls
         (Speak.set_tts_enabled false (fst (new_connector (silence_config 2))))
         world0)
  = Speak.set_tts_enabled false (fst (new_connector (silence_config 2))).
Proof.
  rewrite (calls_while_disabled two_quiet_calls
             (Speak.set_tts_enabled false
                (fst (new_connector (silence_config 2))))
             world0 eq_refl ltac:(repeat constructor)).
  reflexivity.
Defined.

(** X9.  With a silence rate of zero (the default) or below, no call is
    ever skipped: while speech is enabled, every [connect] call of a
    sequence creates its pending message. *)
Theorem no_silence_rate_never_skips cs : forall self w,
  Speak.tts_enabled self = true ->
  Speak.self_silence_rate self <= 0 ->
  Forall (fun c => is_connect c = true) cs ->
  created_messages (trace (snd (Speak.calls cs self w)))
  = (created_messages (trace w) + List.length cs)%nat.
Proof.
  induction cs as [|c cs IH]; intros self w He Hrate Hc.
  - simpl. lia.
  - inversion Hc as [|? ? Hc1 Hrest]; subst.
    destruct c as [action llm_prompt uuid| |]; try discriminate.
    cbn [Speak.calls Speak.call]. rewrite bind_run.
    assert (Hs : Speak.skips llm_prompt self = false).
    { unfold Speak.skips.
      destruct (0 <? Speak.self_silence_rate self) eqn:H0; [|reflexivity].
      apply Z.ltb_lt in H0. lia. }
    destruct (connect_accept action llm_prompt uuid self w He Hs)
      as (_ & Hr & He' & Hm).
    rewrite IH; [|exact He'|rewrite Hr; exact Hrate|exact Hrest].
    rewrite Hm. simpl. lia.
Qed.

Lemma no_silence_rate_never_skips_witness :
  created_messages
    (trace (snd (Speak.calls two_quiet_calls
                   (fst (new_connector Speak.default_config)) world0)))
  = 2%nat.
Proof.
  exact (no_silence_rate_never_skips two_quiet_calls
           (fst (new_connector Speak.default_config)) world0
           eq_refl ltac:(discriminate) ltac:(repeat constructor)).
Defined.

Lemma calls_app a : forall b self w,
  Speak.calls (a ++ b) self w
  = Speak.calls b (fst (Speak.calls a self w)) (snd (Speak.calls a self w)).
Proof.
  induction a as [|c a IH]; intros b self w; simpl; [reflexivity|].
  rewrite !bind_run. apply IH.
Qed.

Lemma Forall_skipn_quiet n (cs : list Speak.Call) :
  Forall (fun c => quiet_call c = true) cs ->
  Forall (fun c => quiet_call c = true) (skipn n cs).
Proof.
  intros H. rewrite <- (firstn_skipn n cs) in H.
  apply Forall_app in H. exact (proj2 H).
Qed.

(** One round: [silence_rate] quiet calls are skipped and the next one is
    accepted, which leaves the connector ready for another round. *)
Lemma quiet_round cs self w :
  Speak.tts_enabled self = true ->
  0 < Speak.self_silence_rate self ->
  Speak.silence_counter self = 0 ->
  Forall (fun c => quiet_call c = true) cs ->
  List.length cs = S (Z.to_nat (Speak.self_silence_rate self)) ->
  Speak.tts_enabled (fst (Speak.calls cs self w)) = true
  /\ Speak.self_silence_rate (fst (Speak.calls cs self w))
     = Speak.self_silence_rate self
  /\ Speak.silence_counter (fst (Speak.calls cs self w)) = 0
  /\ created_messages (trace (snd (Speak.calls cs self w)))
     = S (created_messages (trace w)).
Proof.
  intros He Hrate Hc Hq Hlen.
  set (n := Z.to_nat (Speak.self_silence_rate self)) in *.
  assert (Hn : Z.of_nat n = Speak.self_silence_rate self)
    by (unfold n; lia).
  rewrite <- (firstn_skipn n cs), calls_app.
  assert (Hfirst : List.length (firstn n cs) = n)
    by (apply length_firstn_le; lia).
  rewrite (skip_run (firstn n cs) self w);
    [|exact He|lia|rewrite Hfirst; lia|apply Forall_firstn_quiet, Hq].
  rewrite Hfirst, Hc. cbn [fst snd].
  pose proof (Forall_skipn_quiet n cs Hq) as Hlast.
  assert (Hone : List.length (skipn n cs) = 1%nat)
    by (rewrite length_skipn; lia).
  destruct (skipn n cs) as [|c [|c' rest]]; try discriminate.
  inversion Hlast as [|? ? Hc1 _]; subst.
  destruct c as [action llm_prompt uuid| |]; try discriminate.
  cbn [Speak.calls Speak.call]. rewrite bind_run. unfold ret. cbn [fst snd].
  assert (Hs : Speak.skips llm_prompt
                 (Speak.set_silence_counter (0 + Z.of_nat n) self) = false).
  { unfold Speak.skips. simpl. rewrite Hn, Z.ltb_irrefl, andb_false_r.
    reflexivity. }
  destruct (connect_accept action llm_prompt uuid
              (Speak.set_silence_counter (0 + Z.of_nat n) self)
              (mkWorld (next_id w)
                 (trace w ++ skip_records (Speak.self_silence_rate self) 0 n))
              He Hs) as (H0 & Hr & He' & Hm).
  rewrite H0, Hr, He', Hm. simpl.
  rewrite created_messages_app, created_messages_skip_records.
  repeat split; lia.
Qed.

(** X10.  The silence rate thins speech at a fixed ratio: with
    [silence_rate] = N > 0, speech enabled and the counter at 0, of every
    N + 1 calls made without voice input exactly one is spoken.  After k
    rounds of N + 1 such calls the counter is back at 0 and k pending
    messages have been created. *)
Theorem one_in_every_round k : forall cs self w,
  Speak.tts_enabled self = true ->
  0 < Speak.self_silence_rate self ->
  Speak.silence_counter self = 0 ->
  Forall (fun c => quiet_call c = true) cs ->
  List.length cs = (k * S (Z.to_nat (Speak.self_silence_rate self)))%nat ->
  Speak.silence_counter (fst (Speak.calls cs self w)) = 0
  /\ created_messages (trace (snd (Speak.calls cs self w)))
     = (created_messages (trace w) + k)%nat.
Proof.
  induction k as [|k IH]; intros cs self w He Hrate Hc Hq Hlen.
  - destruct cs; [|discriminate]. simpl. split; [exact Hc|lia].
  - set (m := S (Z.to_nat (Speak.self_silence_rate self))) in *.
    rewrite <- (firstn_skipn m cs), calls_app.
    assert (Hfirst : List.length (firstn m cs) = m)
      by (apply length_firstn_le; lia).
    destruct (quiet_round (firstn m cs) self w He Hrate Hc
                (Forall_firstn_quiet m cs Hq) Hfirst)
      as (He' & Hr & Hc' & Hm).
    destruct (IH (skipn m cs) (fst (Speak.calls (firstn m cs) self w))
                (snd (Speak.calls (firstn m cs) self w)))
      as [H0 H1];
      try assumption.
    + rewrite Hr. exact Hrate.
    + apply Forall_skipn_quiet, Hq.
    + rewrite length_skipn, Hr. fold m. lia.
    + split; [exact H0|]. rewrite H1, Hm. lia.
Qed.

Lemma one_in_every_round_witness :
  created_messages
    (trace (snd (Speak.calls
                   (repeat (Speak.Connect "Hello, world!" text_prompt "uuid")
                      6)
                   (fst (new_connector (silence_config 2))) world0)))
  = 2%nat.
Proof.
  refine (proj2 (one_in_every_round 2
                   (repeat (Speak.Connect "Hello, world!" text_prompt "uuid")
                      6)
                   (fst (new_connector (silence_config 2))) world0
                   eq_refl _ eq_refl _ eq_refl)).
  - vm_compute. reflexivity.
  - repeat constructor.
Defined.

(** The connector a control request leaves, publisher or not. *)
Lemma status_request_state r self w :
  fst (fst (Speak._zenoh_tts_status_request r self w))
  = if req_code r =? 2 then self
    else if req_code r =? 1 then Speak.set_tts_enabled true self
    else if req_code r =? 0 then Speak.set_tts_enabled false self
    else self.
Proof.
  unfold Speak._zenoh_tts_status_request, Speak.put_response.
  destruct self as [rate counter sess apub [rpub|] status p enabled];
    destruct (req_code r =? 2), (req_code r =? 1), (req_code r =? 0);
    reflexivity.
Qed.

(** What a control request publishes when the publisher is declared. *)
Lemma status_request_published r self pub w :
  Speak._zenoh_tts_status_response_pub self = Some pub ->
  responses (trace (snd (Speak._zenoh_tts_status_request r self w)))
  = responses (trace w)
    ++ (if req_code r =? 2 then
          [reply r (if Speak.tts_enabled self then 1 else 0)
             (if Speak.tts_enabled self
              then "TTS Enabled" else "TTS Disabled")]
        else if req_code r =? 1 then [reply r 1 "TTS Enabled"]
        else if req_code r =? 0 then [reply r 0 "TTS Disabled"]
        else []).
Proof.
  unfold Speak._zenoh_tts_status_request, Speak.put_response.
  destruct self as [rate counter sess apub rpub status p enabled].
  simpl. intros ->.
  destruct (req_code r =? 2), (req_code r =? 1), (req_code r =? 0); run;
    rewrite ?responses_app; simpl; rewrite ?app_nil_r; reflexivity.
Qed.

(** Without the publisher a control request puts nothing. *)
Lemma status_request_unpublished r self w :
  Speak._zenoh_tts_status_response_pub self = None ->
  responses (trace (snd (Speak._zenoh_tts_status_request r self w)))
  = responses (trace w).
Proof.
  unfold Speak._zenoh_tts_status_request, Speak.put_response.
  destruct self as [rate counter sess apub rpub status p enabled].
  simpl. intros ->.
  destruct (req_code r =? 2), (req_code r =? 1), (req_code r =? 0); run;
    rewrite ?responses_app; simpl; rewrite ?app_nil_r; reflexivity.
Qed.

(** A control request creates no pending message. *)
Lemma status_request_creates_nothing r self w :
  created_messages (trace (snd (Speak._zenoh_tts_status_request r self w)))
  = created_messages (trace w).
Proof.
  unfold Speak._zenoh_tts_status_request, Speak.put_response.
  destruct self as [rate counter sess apub [rpub|] status p enabled];
    destruct (req_code r =? 2), (req_code r =? 1), (req_code r =? 0); run;
    rewrite ?created_messages_app; simpl; lia.
Qed.

(** X11.  A status read reports the last write: an enable (code 1) or a
    disable (code 0) request sets [tts_enabled] accordingly, in every state
    of the connector.  When the response publisher is declared, that request
    and the read request (code 2) that follows are each answered with the
    code and status text of the write, each response under its own
    request's frame identifier and request id; when the publisher was never
    declared, neither request is answered. *)
Theorem status_read_after_write r1 r2 self w :
  req_code r1 = 1 \/ req_code r1 = 0 ->
  req_code r2 = 2 ->
  Speak.tts_enabled (fst (fst (Speak._zenoh_tts_status_request r1 self w)))
  = (req_code r1 =? 1)
  /\ responses
       (trace (snd ((s <- Speak._zenoh_tts_status_request r1 self ;;
                     Speak._zenoh_tts_status_request r2 (fst s)) w)))
     = responses (trace w)
       ++ match Speak._zenoh_tts_status_response_pub self with
          | Some _ =>
              [reply r1 (req_code r1)
                 (if req_code r1 =? 1 then "TTS Enabled" else "TTS Disabled");
               reply r2 (req_code r1)
                 (if req_code r1 =? 1 then "TTS Enabled" else "TTS Disabled")]
          | None => []
          end.
Proof.
  intros Hwrite Hread. rewrite bind_run.
  split.
  - rewrite status_request_state.
    destruct Hwrite as [H|H]; rewrite H; reflexivity.
  - destruct (Speak._zenoh_tts_status_response_pub self) as [pub|] eqn:Hpub.
    + assert (Hpub' :
        Speak._zenoh_tts_status_response_pub
          (fst (fst (Speak._zenoh_tts_status_request r1 self w)))
        = Some pub).
      { rewrite status_request_state.
        destruct (req_code r1 =? 2), (req_code r1 =? 1), (req_code r1 =? 0);
          exact Hpub. }
      rewrite (status_request_published r2 _ pub _ Hpub').
      rewrite (status_request_published r1 self pub w Hpub).
      rewrite status_request_state, Hread.
      destruct Hwrite as [H1|H0]; [rewrite H1|rewrite H0]; simpl;
        rewrite <- app_assoc; reflexivity.
    + assert (Hpub' :
        Speak._zenoh_tts_status_response_pub
          (fst (fst (Speak._zenoh_tts_status_request r1 self w)))
        = None).
      { rewrite status_request_state.
        destruct (req_code r1 =? 2), (req_code r1 =? 1), (req_code r1 =? 0);
          exact Hpub. }
      rewrite (status_request_unpublished r2 _ _ Hpub').
      rewrite (status_request_unpublished r1 self w Hpub).
      symmetry. apply app_nil_r.
Qed.

Lemma status_read_after_write_witness :
  responses
    (trace (snd ((s <- Speak._zenoh_tts_status_request (sample_request 0)
                         (fst (new_connector Speak.default_config)) ;;
                  Speak._zenoh_tts_status_request (sample_request 2) (fst s))
                   world0)))
  = [reply (sample_request 0) 0 "TTS Disabled";
     reply (sample_request 2) 0 "TTS Disabled"].
Proof.
  exact (proj2 (status_read_after_write (sample_request 0) (sample_request 2)
                  (fst (new_connector Speak.default_config)) world0
                  (or_intror eq_refl) eq_refl)).
Defined.

(** X12.  When the response publisher was never declared, a request with
    code 0, 1 or 2 ends in [AttributeError] and puts no response; the
    change it asks for is made all the same, since [tts_enabled] is
    assigned before the response is sent. *)
Theorem status_request_without_publisher r self w :
  Speak._zenoh_tts_status_response_pub self = None ->
  req_code r = 0 \/ req_code r = 1 \/ req_code r = 2 ->
  snd (fst (Speak._zenoh_tts_status_request r self w)) = Speak.AttributeError
  /\ responses (trace (snd (Speak._zenoh_tts_status_request r self w)))
     = responses (trace w)
  /\ Speak.tts_enabled (fst (fst (Speak._zenoh_tts_status_request r self w)))
     = (if req_code r =? 2 then Speak.tts_enabled self else req_code r =? 1).
Proof.
  intros Hpub Hcode.
  unfold Speak._zenoh_tts_status_request, Speak.put_response.
  destruct self as [rate counter sess apub rpub status p enabled].
  simpl in Hpub. subst rpub.
  destruct Hcode as [H|[H|H]]; rewrite H; simpl; run;
    rewrite ?responses_app; simpl; rewrite ?app_nil_r;
    repeat split; reflexivity.
Qed.

Lemma status_request_without_publisher_witness :
  Speak.tts_enabled
    (fst (fst (Speak._zenoh_tts_status_request (sample_request 0)
                 (fst (Speak.init Speak.default_config
                         (Speak.Raises Speak.OpenSession) "uuid-0" None
                         world0))
                 world0)))
  = false.
Proof.
  exact (proj2 (proj2 (status_request_without_publisher (sample_request 0)
                         (fst (Speak.init Speak.default_config
                                 (Speak.Raises Speak.OpenSession) "uuid-0"
                                 None world0))
                         world0 eq_refl (or_introl eq_refl)))).
Defined.

(** X13.  Disabling and enabling again is a round trip: after a disable
    request, a [connect] call and an enable request, the connector is the
    one it was with speech enabled (the silence counter is neither advanced
    nor reset), and the call made in between created no pending message. *)
Theorem disable_enable_round_trip r0 r1 action llm_prompt uuid self w :
  req_code r0 = 0 ->
  req_code r1 = 1 ->
  fst (Speak.calls
         [Speak.StatusRequest r0; Speak.Connect action llm_prompt uuid;
          Speak.StatusRequest r1] self w)
  = Speak.set_tts_enabled true self
  /\ created_messages
       (trace (snd (Speak.calls
                      [Speak.StatusRequest r0;
                       Speak.Connect action llm_prompt uuid;
                       Speak.StatusRequest r1] self w)))
     = created_messages (trace w).
Proof.
  intros H0 H1. cbn [Speak.calls Speak.call]. rewrite !bind_run.
  unfold ret. cbn [fst snd].
  rewrite (status_request_state r0 self w), H0. cbn [Z.eqb].
  rewrite connect_disabled by reflexivity. cbn [fst snd].
  rewrite status_request_state, H1. cbn [Z.eqb Pos.eqb].
  split; [reflexivity|].
  rewrite status_request_creates_nothing. simpl.
  rewrite created_messages_app, status_request_creates_nothing. simpl. lia.
Qed.

Lemma disable_enable_round_trip_witness :
  fst (Speak.calls
         [Speak.StatusRequest (sample_request 0);
          Speak.Connect "Hello, world!" voice_prompt "uuid-1";
          Speak.StatusRequest (sample_request 1)]
         (fst (new_connector (silence_config 2))) world0)
  = fst (new_connector (silence_config 2)).
Proof.
  exact (proj1 (disable_enable_round_trip (sample_request 0) (sample_request 1)
                  "Hello, world!" voice_prompt "uuid-1"
                  (fst (new_connector (silence_config 2))) world0
                  eq_refl eq_refl)).
Defined.

(** *** Construction *)

(** The provider's lifecycle methods enqueue nothing and publish nothing. *)
Lemma provider_init_effects a w :
  enqueued (trace (snd (Provider.init a w))) = enqueued (trace w)
  /\ audio_puts (trace (snd (Provider.init a w))) = audio_puts (trace w).
Proof.
  unfold Provider.init. run.
  rewrite enqueued_app, audio_puts_app. simpl. rewrite !app_nil_r.
  split; reflexivity.
Qed.

Lemma provider_start_effects p w :
  enqueued (trace (snd (Provider.start p w))) = enqueued (trace w)
  /\ audio_puts (trace (snd (Provider.start p w))) = audio_puts (trace w).
Proof.
  unfold Provider.start. destruct (Provider.running p); run;
    rewrite enqueued_app, audio_puts_app; simpl; rewrite !app_nil_r;
    split; reflexivity.
Qed.

Lemma provider_configure_effects a p w :
  enqueued (trace (snd (Provider.configure a p w))) = enqueued (trace w)
  /\ audio_puts (trace (snd (Provider.configure a p w)))
     = audio_puts (trace w).
Proof.
  destruct (Provider.restart_needed a p) eqn:Hneed.
  - destruct (Provider.running p) eqn:Hrun.
    + rewrite configure_restart_running by assumption. simpl.
      rewrite enqueued_app, audio_puts_app. simpl. rewrite !app_nil_r.
      split; reflexivity.
    + rewrite configure_restart_stopped by assumption. simpl.
      rewrite enqueued_app, audio_puts_app. simpl. rewrite !app_nil_r.
      split; reflexivity.
  - rewrite configure_same by assumption. split; reflexivity.
Qed.

Lemma provider_singleton_effects instance a w :
  enqueued (trace (snd (Provider.singleton instance a w)))
  = enqueued (trace w)
  /\ audio_puts (trace (snd (Provider.singleton instance a w)))
     = audio_puts (trace w).
Proof.
  destruct instance as [p|];
    [split; reflexivity | exact (provider_init_effects a w)].
Qed.

(** Building a connector enqueues nothing; it publishes the initial status
    only if the whole transport block went through. *)
Lemma init_effects config zenoh uuid instance w :
  enqueued (trace (snd (Speak.init config zenoh uuid instance w)))
  = enqueued (trace w)
  /\ (forall s, zenoh = Speak.Raises s ->
      audio_puts (trace (snd (Speak.init config zenoh uuid instance w)))
      = audio_puts (trace w)).
Proof.
  unfold Speak.init. rewrite !bind_run. unfold ret. cbn [fst snd].
  split.
  - rewrite (fun a p w0 => proj1 (provider_configure_effects a p w0)),
      (fun p w0 => proj1 (provider_start_effects p w0)),
      (fun i a w0 => proj1 (provider_singleton_effects i a w0)).
    destruct zenoh; run; rewrite ?enqueued_app; simpl;
      rewrite ?app_nil_r; reflexivity.
  - intros s ->.
    rewrite (fun a p w0 => proj2 (provider_configure_effects a p w0)),
      (fun p w0 => proj2 (provider_start_effects p w0)),
      (fun i a w0 => proj2 (provider_singleton_effects i a w0)).
    run. rewrite audio_puts_app. simpl. apply app_nil_r.
Qed.

Lemma init_audio_pub config zenoh uuid instance w :
  Speak.audio_pub (fst (Speak.init config zenoh uuid instance w))
  = if Speak.passed zenoh Speak.DeclareAudioPublisher
    then Some (Speak.publisher "robot/status/audio") else None.
Proof. unfold Speak.init. rewrite !bind_run. reflexivity. Qed.

(** The provider of a new connector: whether it runs, and the pending
    messages it builds. *)
Lemma init_tts_state config zenoh uuid instance w :
  match instance with
  | None =>
      Provider.running
        (Speak.tts (fst (Speak.init config zenoh uuid instance w))) = true
      /\ forall txt,
           pending_of txt
             (Speak.tts (fst (Speak.init config zenoh uuid instance w)))
           = mkPending txt (Speak.voice_id config) (Speak.model_id config)
               (Speak.output_format config)
  | Some p =>
      if Provider.restart_needed (Speak.provider_args config) p
      then Provider.running
             (Speak.tts (fst (Speak.init config zenoh uuid instance w)))
           = false
      else Provider.running
             (Speak.tts (fst (Speak.init config zenoh uuid instance w)))
           = true
           /\ forall txt,
                pending_of txt
                  (Speak.tts (fst (Speak.init config zenoh uuid instance w)))
                = pending_of txt p
  end.
Proof.
  destruct (init_tts config zenoh uuid instance w) as (w1 & w2 & w3 & ->).
  destruct instance as [p|]; unfold Provider.singleton, ret; cbn [fst].
  - destruct (Provider.restart_needed (Speak.provider_args config) p) eqn:Hn.
    + rewrite configure_restart_running;
        [reflexivity | rewrite restart_needed_start; exact Hn
        | apply start_running].
    + rewrite configure_same by (rewrite restart_needed_start; exact Hn).
      split; [apply start_running|].
      intros txt. unfold Provider.start, pending_of.
      destruct (Provider.running p); reflexivity.
  - rewrite configure_same
      by (rewrite restart_needed_start; apply restart_needed_init).
    split; [apply start_running|]. intros txt. reflexivity.
Qed.

(** X14.  When the transport cannot be opened (the failure comes before the
    audio publisher is declared), the connector is built all the same and
    speaks through the provider directly: a first call made on voice input
    publishes nothing and is enqueued with the configured voice when the
    connector built the provider, with the existing provider's voice when
    that provider needed no restart, and is dropped when it did, since the
    restart left the provider stopped. *)
Theorem speech_without_transport config s uuid instance action llm_prompt
    uuid' w :
  (Speak.step_index s <= 1)%nat ->
  Speak.is_voice llm_prompt = true ->
  audio_puts
    (trace (snd ((c <- Speak.init config (Speak.Raises s) uuid instance ;;
                  Speak.connect action llm_prompt uuid' c) w)))
  = audio_puts (trace w)
  /\ enqueued
       (trace (snd ((c <- Speak.init config (Speak.Raises s) uuid instance ;;
                     Speak.connect action llm_prompt uuid' c) w)))
     = enqueued (trace w)
       ++ match instance with
          | None =>
              [mkPending action (Speak.voice_id config)
                 (Speak.model_id config) (Speak.output_format config)]
          | Some p =>
              if Provider.restart_needed (Speak.provider_args config) p
              then [] else [pending_of action p]
          end.
Proof.
  intros Hs Hvoice. rewrite bind_run.
  destruct (init_silence config (Speak.Raises s) uuid instance w)
    as (_ & _ & He).
  rewrite (connect_accept_run action llm_prompt uuid' _ _ He
             (is_voice_skips llm_prompt _ Hvoice)).
  rewrite init_audio_pub.
  assert (Hpub : Speak.passed (Speak.Raises s) Speak.DeclareAudioPublisher
                 = false).
  { simpl. apply Nat.ltb_ge. exact Hs. }
  rewrite Hpub, Hvoice. cbn [snd].
  match goal with
  | |- context [Provider.add_pending_message (Provider.Dict ?m) ?p ?w0] =>
      destruct (add_dict_effects m p w0) as (Henq & Hput & _)
  end.
  rewrite Henq, Hput. cbn [trace].
  rewrite !audio_puts_app, !enqueued_app. simpl. rewrite !app_nil_r.
  destruct (init_effects config (Speak.Raises s) uuid instance w)
    as [Hie Hia].
  rewrite Hie, (Hia s eq_refl). split; [reflexivity|]. f_equal.
  pose proof (init_tts_state config (Speak.Raises s) uuid instance w) as Hst.
  destruct instance as [p|].
  - destruct (Provider.restart_needed (Speak.provider_args config) p).
    + rewrite Hst. reflexivity.
    + destruct Hst as [Hrun Hmsg]. rewrite Hrun, Hmsg. reflexivity.
  - destruct Hst as [Hrun Hmsg]. rewrite Hrun, Hmsg. reflexivity.
Qed.

Lemma speech_without_transport_witness :
  enqueued
    (trace (snd ((c <- Speak.init Speak.default_config
                         (Speak.Raises Speak.OpenSession) "uuid-0"
                         (Some (fst other_voice_provider)) ;;
                  Speak.connect "Hello, world!" voice_prompt "uuid-1" c)
                   (snd other_voice_provider))))
  = [].
Proof.
  exact (proj2 (speech_without_transport Speak.default_config
                  Speak.OpenSession "uuid-0"
                  (Some (fst other_voice_provider)) "Hello, world!"
                  voice_prompt "uuid-1" (snd other_voice_provider)
                  ltac:(repeat constructor) eq_refl)).
Defined.

(** ** Further properties of the greeting connector *)

(** A response without words is estimated at 0.0 seconds. *)
Lemma estimate_no_words txt :
  Py.split txt = [] -> Greeting.estimate txt = 0%float.
Proof.
  intros H. unfold Greeting.estimate, Greeting.word_count. rewrite H.
  vm_compute. reflexivity.
Qed.

Section GreetingTurns.

Variable value : Greeting.ConversationState -> Greeting.Constant.
Variable Machine : Type.
Variable set_current_state : Greeting.ConversationState -> Machine -> Machine.
Variable process_conversation :
  Greeting.Input -> Machine -> Machine * Greeting.Dictionary.
Variable update_state_without_llm : Machine -> Machine * Greeting.Dictionary.

Local Abbreviation init := (Greeting.init Machine set_current_state).
Local Abbreviation connect := (Greeting.connect Machine process_conversation).
Local Abbreviation tick :=
  (Greeting.tick value Machine update_state_without_llm).

(** What a turn hands to the stream. *)
Lemma greeting_connect_enqueued inp now self w :
  enqueued (trace (snd (connect inp now self w)))
  = enqueued (trace w)
    ++ (if Provider.running (Greeting.tts Machine self)
        then [pending_of (Greeting.response inp) (Greeting.tts Machine self)]
        else []).
Proof.
  unfold Greeting.connect, Provider.add_pending_message,
    Provider.create_pending_message, pending_of.
  destruct self as [m0 [key [|] stream voice model format interrupt] t0 d0];
    simpl;
    destruct (process_conversation inp m0) as [m d]; simpl;
    destruct (Greeting.py_eqb (Greeting.get "current_state" d)
                (Greeting.PyState Greeting.FINISHED));
    unfold Greeting.notify_finished; run;
    rewrite ?enqueued_app; simpl; rewrite ?app_nil_r; reflexivity.
Qed.

(** The connector [__init__] builds. *)
Lemma greeting_init_run config now instance machine w :
  init config now instance machine w
  = (Greeting.mk Machine (set_current_state Greeting.CONVERSING machine)
       (fst (Provider.start
               (fst (Provider.singleton instance
                       (Speak.provider_args config) w))
               (snd (Provider.singleton instance
                       (Speak.provider_args config) w))))
       now 0%float,
     snd (Provider.start
            (fst (Provider.singleton instance (Speak.provider_args config) w))
            (snd (Provider.singleton instance
                    (Speak.provider_args config) w)))).
Proof.
  unfold Greeting.init. rewrite !bind_run. reflexivity.
Qed.

(** X15.  A greeting connector always ends construction with a running
    provider, so its first turn is enqueued; it is spoken with the
    connector's configured voice, model and format only when the connector
    built the provider.  When a provider existed already, the connector's
    own settings are not applied and the turn carries that provider's. *)
Theorem greeting_first_turn config now instance machine inp now' w :
  Provider.running
    (Greeting.tts Machine (fst (init config now instance machine w))) = true
  /\ enqueued
       (trace (snd ((g <- init config now instance machine ;;
                     connect inp now' g) w)))
     = enqueued (trace w)
       ++ [match instance with
           | None =>
               mkPending (Greeting.response inp) (Speak.voice_id config)
                 (Speak.model_id config) (Speak.output_format config)
           | Some p => pending_of (Greeting.response inp) p
           end].
Proof.
  rewrite bind_run, greeting_connect_enqueued, greeting_init_run.
  cbn [fst snd Greeting.tts].
  rewrite start_running.
  rewrite (fun p w0 => proj1 (provider_start_effects p w0)),
    (fun i a w0 => proj1 (provider_singleton_effects i a w0)).
  split; [reflexivity|]. f_equal. f_equal.
  destruct instance as [p|]; unfold Provider.singleton, ret; cbn [fst snd].
  - unfold Provider.start, pending_of.
    destruct (Provider.running p); reflexivity.
  - reflexivity.
Qed.

(** X16.  A turn holds the ticks back for the duration it estimates from
    its response: after [connect] at time [t], a tick for which the elapsed
    time [now - t] is less than that estimate leaves the connector as it is
    and only logs, and any other tick asks the state machine exactly once.
    A response without words is estimated at 0.0 seconds, so after such a
    turn no tick whose clock is not behind [t] is held back. *)
Theorem tick_after_connect inp t now self w w' :
  (PrimFloat.ltb (PrimFloat.sub now t)
     (Greeting.estimate (Greeting.response inp)) = true ->
     tick now (fst (connect inp t self w)) w'
     = ((fst (connect inp t self w), Greeting.Returned),
        mkWorld (next_id w')
          (trace w' ++ [Log log_tick; Sleep 10; Log log_tick_skipped])))
  /\ (PrimFloat.ltb (PrimFloat.sub now t)
        (Greeting.estimate (Greeting.response inp)) = false ->
     state_updates (trace (snd (tick now (fst (connect inp t self w)) w')))
     = S (state_updates (trace w')))
  /\ (Py.split (Greeting.response inp) = [] ->
      PrimFloat.leb t now = true ->
     state_updates (trace (snd (tick now (fst (connect inp t self w)) w')))
     = S (state_updates (trace w'))).
Proof.
  destruct (connect_run Machine process_conversation inp t self w)
    as (added & Heq & _).
  rewrite Heq. cbn [fst].
  split; [|split].
  - intros Hnow. apply tick_early. exact Hnow.
  - intros Hnow. apply tick_late_counts. exact Hnow.
  - intros Hblank Hnow. apply tick_late_counts.
    cbn [Greeting.tts_triggered_time Greeting.tts_duration].
    rewrite (estimate_no_words _ Hblank).
    apply sub_not_below_zero. exact Hnow.
Qed.

(** X17.  Nothing is estimated at construction (the duration is 0.0), so
    the first ticks are not held back: any tick whose clock is not behind
    the time of construction asks the state machine. *)
Theorem first_tick_after_init config now0 instance machine now w w' :
  PrimFloat.leb now0 now = true ->
  state_updates
    (trace (snd (tick now (fst (init config now0 instance machine w)) w')))
  = S (state_updates (trace w')).
Proof.
  intros Hnow. rewrite greeting_init_run. cbn [fst].
  apply tick_late_counts.
  cbn [Greeting.tts_triggered_time Greeting.tts_duration].
  apply sub_not_below_zero. exact Hnow.
Qed.

End GreetingTurns.

Lemma tick_after_connect_witness :
  state_updates
    (trace (snd (Greeting.tick lower_value unit reports_member 104
                   (fst (Greeting.connect unit (fun _ => reports_member)
                           six_words 100 (fst spoke_at_100)
                           (snd spoke_at_100)))
                   world0)))
  = 1%nat.
Proof.
  refine (proj1 (proj2 (tick_after_connect lower_value unit
                          (fun _ => reports_member) reports_member six_words
                          100 104 (fst spoke_at_100) (snd spoke_at_100)
                          world0)) _).
  vm_compute. reflexivity.
Defined.

Lemma first_tick_after_init_witness :
  state_updates
    (trace (snd (Greeting.tick lower_value unit reports_member 5
                   (fst (Greeting.init unit (fun _ m => m)
                           Speak.default_config 0 None tt world0))
                   world0)))
  = 1%nat.
Proof.
  refine (first_tick_after_init lower_value unit (fun _ m => m)
            reports_member Speak.default_config 0 None tt 5 world0 world0 _).
  vm_compute. reflexivity.
Defined.

(** ** The version check *)

(** [int] does not take the separators 0x1C to 0x1F for white space, as
    [str.split] does, so a version that ends in one is not a number; a
    no-break space (0xA0) is stripped. *)
Example int_rejects_separator :
  Builtins.int (String "0" (String (ascii_of_nat 28) "")) = None
  /\ Builtins.int (String "0" (String (ascii_of_nat 160) "")) = Some 0
  /\ Py.split (String "0" (String (ascii_of_nat 28) "")) = ["0"%string]
  /\ fst (Version.is_version_supported "v1.0.2"
            (Some (String "1" (String "." (String "0"
                     (String (ascii_of_nat 28) ""))))))
     = Version.Raises Version.InvalidVersionFormat.
Proof. repeat split. Qed.

Lemma nth_pad n parts : nth n (Version.pad parts) 0 = nth n parts 0.
Proof.
  unfold Version.pad.
  destruct (Nat.lt_ge_cases n (List.length parts)) as [Hlt|Hge].
  - apply app_nth1. exact Hlt.
  - rewrite app_nth2 by exact Hge.
    rewrite (nth_overflow parts) by exact Hge.
    apply nth_repeat.
Qed.

(** The body of the check, with the padding read as a default. *)
Lemma compare_parts_run latest version :
  Version.compare_parts latest version
  = match Version.parts_of (Builtins.lstrip "v" latest),
          Version.parts_of (Builtins.lstrip "v" version) with
    | Some sp, Some ip =>
        if negb (nth 0 sp 0 =? nth 0 ip 0) then
          (Version.Raises
             (Version.MajorVersionMismatch (nth 0 sp 0) (nth 0 ip 0)), [])
        else if negb (nth 1 sp 0 =? nth 1 ip 0) then
          (Version.Returns true,
           [Version.warning_minor_mismatch (nth 1 sp 0) (nth 1 ip 0)])
        else (Version.Returns true, [])
    | _, _ => (Version.Raises Version.InvalidLiteral, [])
    end.
Proof.
  unfold Version.compare_parts.
  destruct (Version.parts_of (Builtins.lstrip "v" latest)) as [sp|];
    [|reflexivity].
  destruct (Version.parts_of (Builtins.lstrip "v" version)) as [ip|];
    [|reflexivity].
  rewrite !nth_pad. reflexivity.
Qed.

(** The three ways the check can end. *)
Lemma is_version_supported_cases latest version :
  fst (Version.is_version_supported latest version) = Version.Returns true
  \/ Version.is_version_supported latest version
     = (Version.Raises Version.VersionCannotBeNone, [])
  \/ Version.is_version_supported latest version
     = (Version.Raises Version.InvalidVersionFormat, []).
Proof.
  destruct version as [v|]; simpl; [|right; left; reflexivity].
  rewrite compare_parts_run.
  destruct (Version.parts_of (Builtins.lstrip "v" latest)) as [sp|],
    (Version.parts_of (Builtins.lstrip "v" v)) as [ip|]; simpl;
    try (right; right; reflexivity).
  destruct (nth 0 sp 0 =? nth 0 ip 0), (nth 1 sp 0 =? nth 1 ip 0); simpl;
    auto.
Qed.

(** X18.  [is_version_supported] never returns [False]: it returns [True]
    or raises.  It raises "Version cannot be None" exactly for [None]; every
    other failure, a major version mismatch included, reaches the caller as
    "Invalid version format", and nothing is logged when it raises. *)
Theorem is_version_supported_outcomes latest version :
  (fst (Version.is_version_supported latest version)
   = Version.Raises Version.VersionCannotBeNone <-> version = None)
  /\ (fst (Version.is_version_supported latest version)
      = Version.Returns true
      \/ Version.is_version_supported latest version
         = (Version.Raises Version.VersionCannotBeNone, [])
      \/ Version.is_version_supported latest version
         = (Version.Raises Version.InvalidVersionFormat, [])).
Proof.
  split; [|apply is_version_supported_cases].
  destruct version as [v|]; [|split; reflexivity].
  split; [|discriminate].
  destruct (is_version_supported_cases latest (Some v)) as [H|[H|H]];
    rewrite H; try discriminate.
  simpl in H. destruct (Version.compare_parts latest v) as [[b|e] logged];
    discriminate.
Qed.

(** X19.  A version is supported exactly when both it and the runtime
    version, leading "v"s dropped, are dot-separated integers with the same
    first component. *)
Theorem supported_iff_same_major latest v :
  fst (Version.is_version_supported latest (Some v)) = Version.Returns true
  <-> exists sp ip,
        Version.parts_of (Builtins.lstrip "v" latest) = Some sp
        /\ Version.parts_of (Builtins.lstrip "v" v) = Some ip
        /\ nth 0 sp 0 = nth 0 ip 0.
Proof.
  simpl. rewrite compare_parts_run.
  destruct (Version.parts_of (Builtins.lstrip "v" latest)) as [sp|],
    (Version.parts_of (Builtins.lstrip "v" v)) as [ip|]; simpl;
    try (split; [discriminate | intros (? & ? & ? & ? & ?); discriminate]).
  destruct (nth 0 sp 0 =? nth 0 ip 0) eqn:Hmajor; simpl.
  - apply Z.eqb_eq in Hmajor. split.
    + intros _. exists sp, ip. auto.
    + intros _. destruct (nth 1 sp 0 =? nth 1 ip 0); reflexivity.
  - apply Z.eqb_neq in Hmajor. split; [discriminate|].
    intros (sp' & ip' & Hs & Hi & Heq). congruence.
Qed.

(** X20.  Below the major component a difference is advisory at most: when
    the first components agree, the check returns [True]; it logs one
    warning if the second components differ, a missing one counting as 0,
    and nothing otherwise.  Later components are never compared. *)
Theorem minor_mismatch_is_a_warning latest v sp ip :
  Version.parts_of (Builtins.lstrip "v" latest) = Some sp ->
  Version.parts_of (Builtins.lstrip "v" v) = Some ip ->
  nth 0 sp 0 = nth 0 ip 0 ->
  Version.is_version_supported latest (Some v)
  = (Version.Returns true,
     if nth 1 sp 0 =? nth 1 ip 0 then []
     else [Version.warning_minor_mismatch (nth 1 sp 0) (nth 1 ip 0)]).
Proof.
  intros Hs Hi Hmajor. simpl. rewrite compare_parts_run, Hs, Hi.
  apply Z.eqb_eq in Hmajor. rewrite Hmajor. simpl.
  destruct (nth 1 sp 0 =? nth 1 ip 0); reflexivity.
Qed.

Lemma minor_mismatch_is_a_warning_witness :
  Version.is_version_supported "v1.0.0" (Some "v1.1.7")
  = (Version.Returns true, [Version.warning_minor_mismatch 0 1]).
Proof.
  exact (minor_mismatch_is_a_warning "v1.0.0" "v1.1.7" [1; 0; 0] [1; 1; 7]
           eq_refl eq_refl eq_refl).
Defined.

(** X21.  [verify_runtime_version] never returns [False] either.  It logs
    the two versions first; then it returns [True] with the "compatible"
    record last, or it logs the failure and raises an error that names both
    versions and wraps the cause, which is "Version cannot be None" or
    "Invalid version format". *)
Theorem verify_runtime_version_outcomes latest config_version config_name :
  (exists inner,
     Version.is_version_supported latest config_version
     = (Version.Returns true, inner)
     /\ Version.verify_runtime_version latest config_version config_name
        = (Version.Returns true,
           [Version.info_loading config_name config_version;
            Version.info_runtime_version latest]
           ++ inner ++ [Version.info_compatible config_name]))
  \/ (exists cause,
        (cause = Version.VersionCannotBeNone
         \/ cause = Version.InvalidVersionFormat)
        /\ Version.is_version_supported latest config_version
           = (Version.Raises cause, [])
        /\ Version.verify_runtime_version latest config_version config_name
           = (Version.Raises
                (Version.Incompatible config_version latest cause),
              [Version.info_loading config_name config_version;
               Version.info_runtime_version latest;
               Version.error_check_failed config_name cause])).
Proof.
  unfold Version.verify_runtime_version.
  destruct (is_version_supported_cases latest config_version)
    as [Hok|[Hnone|Hbad]].
  - left.
    destruct (Version.is_version_supported latest config_version)
      as [out inner].
    simpl in Hok. subst out. exists inner. split; reflexivity.
  - right. exists Version.VersionCannotBeNone. rewrite Hnone.
    repeat split. left. reflexivity.
  - right. exists Version.InvalidVersionFormat. rewrite Hbad.
    repeat split. right. reflexivity.
Qed.

Lemma lstrip_v_app v :
  Builtins.lstrip "v" (v ++ ".0")%string
  = (Builtins.lstrip "v" v ++ ".0")%string.
Proof.
  induction v as [|c v IH]; [reflexivity|].
  cbn [String.append Builtins.lstrip].
  destruct (Builtins.char_in c "v"); [exact IH|reflexivity].
Qed.

Lemma split_char_nonempty sep s : Builtins.split_char sep s <> [].
Proof.
  destruct s as [|c s]; simpl; [discriminate|].
  destruct (Ascii.eqb c sep); [discriminate|].
  destruct (Builtins.split_char sep s); discriminate.
Qed.

Lemma split_char_app_zero s :
  Builtins.split_char "." (s ++ ".0")%string
  = Builtins.split_char "." s ++ ["0"%string].
Proof.
  induction s as [|c s IH]; [reflexivity|].
  cbn [String.append Builtins.split_char]. rewrite IH.
  destruct (Ascii.eqb c "."); [reflexivity|].
  pose proof (split_char_nonempty "." s) as Hne.
  destruct (Builtins.split_char "." s); [contradiction|reflexivity].
Qed.

Lemma ints_app_zero pieces :
  Builtins.ints (pieces ++ ["0"%string])
  = match Builtins.ints pieces with
    | Some ns => Some (ns ++ [0])
    | None => None
    end.
Proof.
  induction pieces as [|x pieces IH]; [reflexivity|].
  cbn [app Builtins.ints]. destruct (Builtins.int x); [|reflexivity].
  rewrite IH. destruct (Builtins.ints pieces); reflexivity.
Qed.

Lemma ints_length pieces : forall ns,
  Builtins.ints pieces = Some ns -> List.length ns = List.length pieces.
Proof.
  induction pieces as [|x pieces IH]; intros ns H; simpl in H.
  - injection H as <-. reflexivity.
  - destruct (Builtins.int x); [|discriminate].
    destruct (Builtins.ints pieces) as [ms|]; [|discriminate].
    injection H as <-. simpl. f_equal. apply IH. reflexivity.
Qed.

Lemma pad_app_zero ns :
  (List.length ns < 3)%nat -> Version.pad (ns ++ [0]) = Version.pad ns.
Proof.
  intros H. destruct ns as [|a [|b [|c ns]]]; try reflexivity.
  simpl in H. lia.
Qed.

(** X22.  Missing components count as zero: for a version of fewer than
    three components, writing one more component ".0" changes neither the
    outcome nor what is logged, so "1", "1.0" and "1.0.0" are checked
    alike. *)
Theorem missing_parts_are_zero latest v :
  (List.length (Builtins.split_char "." (Builtins.lstrip "v" v)) < 3)%nat ->
  Version.is_version_supported latest (Some (v ++ ".0")%string)
  = Version.is_version_supported latest (Some v).
Proof.
  intros Hlen. simpl. unfold Version.compare_parts, Version.parts_of.
  rewrite lstrip_v_app, split_char_app_zero, ints_app_zero.
  destruct (Builtins.ints
              (Builtins.split_char "." (Builtins.lstrip "v" latest)))
    as [sp|]; [|reflexivity].
  destruct (Builtins.ints (Builtins.split_char "." (Builtins.lstrip "v" v)))
    as [ip|] eqn:Hip; [|reflexivity].
  rewrite pad_app_zero; [reflexivity|].
  rewrite (ints_length _ _ Hip). exact Hlen.
Qed.

Lemma missing_parts_are_zero_witness :
  Version.is_version_supported "v1.0.0" (Some "v1.0")
  = Version.is_version_supported "v1.0.0" (Some "v1").
Proof.
  exact (missing_parts_are_zero "v1.0.0" "v1" ltac:(repeat constructor)).
Defined.

(** ** Across methods *)

Lemma callbacks_set_app a b :
  callbacks_set (a ++ b) = callbacks_set a ++ callbacks_set b.
Proof.
  induction a as [|e a IH]; simpl; [reflexivity|].
  destruct e; simpl; rewrite IH; reflexivity.
Qed.

(** X23.  A state callback does not survive a restart.  When a callback is
    registered and [configure] then restarts the stream, the callback was
    set on the old stream only: the provider ends with a newly built stream
    on which [set_tts_state_callback] was never called. *)
Theorem restart_drops_callback cb a self w :
  (Stream.ident (Provider._audio_stream self) < next_id w)%nat ->
  Provider.restart_needed a self = true ->
  callbacks_set
    (trace (snd ((p <- Provider.register_tts_state_callback (Some cb) self ;;
                  Provider.configure a p) w)))
  = callbacks_set (trace w)
    ++ [(Stream.ident (Provider._audio_stream self), cb)]
  /\ Stream.ident
       (Provider._audio_stream
          (fst ((p <- Provider.register_tts_state_callback (Some cb) self ;;
                 Provider.configure a p) w)))
     <> Stream.ident (Provider._audio_stream self).
Proof.
  intros Hold Hneed. rewrite bind_run.
  unfold Provider.register_tts_state_callback. run.
  assert (Hneed' : forall s,
            Provider.restart_needed a
              (Provider.mk (Provider.self_api_key self)
                 (Provider.running self)
                 (Stream.mk (Stream.ident (Provider._audio_stream self))
                    (Stream._url (Provider._audio_stream self))
                    (Stream.tts_model (Provider._audio_stream self))
                    (Stream.tts_voice (Provider._audio_stream self))
                    (Stream.response_format (Provider._audio_stream self))
                    (Stream.rate (Provider._audio_stream self))
                    (Stream.api_key (Provider._audio_stream self))
                    (Stream.enable_tts_interrupt (Provider._audio_stream self))
                    (Stream.started (Provider._audio_stream self))
                    (Stream._pending_requests (Provider._audio_stream self))
                    s)
                 (Provider._voice_id self) (Provider._model_id self)
                 (Provider._output_format self)
                 (Provider._enable_tts_interrupt self)) = true)
    by (intros s; exact Hneed).
  destruct (Provider.running self) eqn:Hrun.
  - rewrite configure_restart_running by (try apply Hneed'; reflexivity).
    simpl. rewrite !callbacks_set_app. simpl. rewrite app_nil_r.
    split; [reflexivity|lia].
  - rewrite configure_restart_stopped by (try apply Hneed'; reflexivity).
    simpl. rewrite !callbacks_set_app. simpl. rewrite app_nil_r.
    split; [reflexivity|lia].
Qed.

Lemma restart_drops_callback_witness :
  Stream.ident
    (Provider._audio_stream
       (fst ((p <- Provider.register_tts_state_callback (Some 7%nat)
                     (fst started_provider) ;;
              Provider.configure new_voice_args p) (snd started_provider))))
  <> Stream.ident (Provider._audio_stream (fst started_provider)).
Proof.
  exact (proj2 (restart_drops_callback 7%nat new_voice_args
                  (fst started_provider) (snd started_provider)
                  ltac:(repeat constructor) eq_refl)).
Defined.

(** X24.  The connector relays the microphone status it heard last: an
    accepted call made after an audio status message publishes that
    message's microphone status, with the speaker active and a header of
    its own. *)
Theorem published_mic_status_is_last_heard a action llm_prompt uuid self w :
  Speak.tts_enabled self = true ->
  Speak.skips llm_prompt self = false ->
  Speak.audio_pub self <> None ->
  audio_puts
    (trace (snd (Speak.calls
                   [Speak.AudioMessage a;
                    Speak.Connect action llm_prompt uuid] self w)))
  = audio_puts (trace w)
    ++ [mkAudioStatus (mkHeader uuid) (status_mic a) SPEAKER_ACTIVE
          (JsonDumps (pending_of action (Speak.tts self)))].
Proof.
  intros He Hs Hpub. cbn [Speak.calls Speak.call]. rewrite !bind_run.
  unfold Speak.zenoh_audio_message, ret. cbn [fst snd].
  rewrite (connect_accept_run action llm_prompt uuid
             (Speak.set_audio_status a self) w He Hs).
  cbn [Speak.audio_pub Speak.set_audio_status Speak.audio_status Speak.tts].
  destruct (Speak.audio_pub self) as [pub|]; [|contradiction].
  simpl. rewrite !audio_puts_app.
  destruct (Speak.is_voice llm_prompt); simpl; rewrite ?app_nil_r;
    reflexivity.
Qed.

Lemma published_mic_status_is_last_heard_witness :
  audio_puts
    (trace (snd (Speak.calls
                   [Speak.AudioMessage
                      (mkAudioStatus (mkHeader "mic") (MIC_other 1)
                         SPEAKER_READY (Raw EmptyString));
                    Speak.Connect "Hello, world!" voice_prompt "uuid-1"]
                   (fst (new_connector Speak.default_config)) world0)))
  = [mkAudioStatus (mkHeader "uuid-1") (MIC_other 1) SPEAKER_ACTIVE
       (JsonDumps (mkPending "Hello, world!" "af_bella" "kokoro" "pcm"))].
Proof.
  exact (published_mic_status_is_last_heard
           (mkAudioStatus (mkHeader "mic") (MIC_other 1) SPEAKER_READY
              (Raw EmptyString))
           "Hello, world!" voice_prompt "uuid-1"
           (fst (new_connector Speak.default_config)) world0
           eq_refl eq_refl ltac:(discriminate)).
Defined.

Lemma provider_stop_effects p w :
  Provider.running (fst (Provider.stop p w)) = false
  /\ enqueued (trace (snd (Provider.stop p w))) = enqueued (trace w)
  /\ audio_puts (trace (snd (Provider.stop p w))) = audio_puts (trace w).
Proof.
  unfold Provider.stop. destruct (Provider.running p) eqn:Hrun; run;
    rewrite enqueued_app, audio_puts_app; simpl; rewrite !app_nil_r;
    repeat split; try reflexivity; exact Hrun.
Qed.

(** X25.  [stop] silences a connector that has no audio publisher: it
    leaves speech enabled and the counter alone, but the provider no longer
    runs, so a call accepted afterwards builds its pending message and the
    provider drops it; nothing is enqueued and nothing is published. *)
Theorem connect_after_stop_is_dropped action llm_prompt uuid self w :
  Speak.tts_enabled self = true ->
  Speak.skips llm_prompt self = false ->
  Speak.audio_pub self = None ->
  enqueued
    (trace (snd ((c <- Speak.stop self ;;
                  Speak.connect action llm_prompt uuid c) w)))
  = enqueued (trace w)
  /\ audio_puts
       (trace (snd ((c <- Speak.stop self ;;
                     Speak.connect action llm_prompt uuid c) w)))
     = audio_puts (trace w)
  /\ created_messages
       (trace (snd ((c <- Speak.stop self ;;
                     Speak.connect action llm_prompt uuid c) w)))
     = S (created_messages (trace w)).
Proof.
  intros He Hs Hpub. rewrite bind_run.
  assert (Hstop : exists w0,
            Speak.stop self w
            = (Speak.set_tts (fst (Provider.stop (Speak.tts self) w0)) self,
               snd (Provider.stop (Speak.tts self) w0))
            /\ enqueued (trace w0) = enqueued (trace w)
            /\ audio_puts (trace w0) = audio_puts (trace w)
            /\ created_messages (trace w0) = created_messages (trace w)).
  { unfold Speak.stop. rewrite !bind_run.
    destruct (Speak.session self); run.
    - eexists. split; [reflexivity|]. simpl.
      rewrite !enqueued_app, !audio_puts_app, !created_messages_app. simpl.
      rewrite !app_nil_r. repeat split; lia.
    - eexists. split; [reflexivity|]. repeat split. }
  destruct Hstop as (w0 & Heq & Henq0 & Hput0 & Hcre0). rewrite Heq.
  cbn [fst snd].
  destruct (provider_stop_effects (Speak.tts self) w0)
    as (Hrun & Henq1 & Hput1).
  assert (Hcre1 : created_messages
                    (trace (snd (Provider.stop (Speak.tts self) w0)))
                  = created_messages (trace w0)).
  { unfold Provider.stop. destruct (Provider.running (Speak.tts self)); run;
      rewrite created_messages_app; simpl; lia. }
  destruct (connect_accept action llm_prompt uuid
              (Speak.set_tts (fst (Provider.stop (Speak.tts self) w0)) self)
              (snd (Provider.stop (Speak.tts self) w0)) He Hs)
    as (_ & _ & _ & Hcre).
  rewrite Hcre, Hcre1, Hcre0.
  rewrite (connect_accept_run action llm_prompt uuid
             (Speak.set_tts (fst (Provider.stop (Speak.tts self) w0)) self)
             (snd (Provider.stop (Speak.tts self) w0)) He Hs).
  cbn [Speak.audio_pub Speak.set_tts Speak.tts Speak.set_silence_counter].
  rewrite Hpub. cbn [snd].
  match goal with
  | |- context [Provider.add_pending_message (Provider.Dict ?m) ?p ?wx] =>
      destruct (add_dict_effects m p wx) as (Henq & Hput & _)
  end.
  rewrite Henq, Hput, Hrun. cbn [trace].
  rewrite !enqueued_app, !audio_puts_app, Henq1, Hput1, Henq0, Hput0.
  destruct (Speak.is_voice llm_prompt); simpl; rewrite ?app_nil_r;
    repeat split; reflexivity.
Qed.

Lemma connect_after_stop_is_dropped_witness :
  enqueued
    (trace (snd ((c <- Speak.stop
                         (fst (Speak.init Speak.default_config
                                 (Speak.Raises Speak.OpenSession) "uuid-0"
                                 None world0)) ;;
                  Speak.connect "Hello, world!" voice_prompt "uuid-1" c)
                   world0)))
  = [].
Proof.
  exact (proj1 (connect_after_stop_is_dropped "Hello, world!" voice_prompt
                  "uuid-1"
                  (fst (Speak.init Speak.default_config
                          (Speak.Raises Speak.OpenSession) "uuid-0" None
                          world0))
                  world0 eq_refl eq_refl eq_refl)).
Defined.
